(** * Calculus Equation Solver: the integration rule engine and the dispatcher

    A shallow embedding of [integrate] and [solveInput] of [src/app.js] and of
    the [solveInput] of the second source file of the repository, which has
    no rule engine and routes the integral to [math.integral].

    Modelling choices.

    - A JavaScript string is its sequence of UTF-16 code units, [list N].
      The literals of the source are written between double quotes and read
      as such sequences, so that the integral sign is the one code unit 8747
      it is for [startsWith], [trim] and the regular expressions.
    - MathJS is not part of the repository.  Its operations ([math.parse],
      [math.derivative], [math.simplify], the [toString] of a node, and the
      [math.integral] the second file asks for) are parameters; each may be
      absent, as the [typeof] probes of the source allow, and each may throw.
    - A JavaScript exception is modelled by its [message], the only field the
      source reads.
    - The value of a MathJS [ConstantNode] is a JavaScript value.  A number
      is a binary64 floating-point number, with the addition of IEEE 754
      and the rendering of ECMAScript's Number::toString, the one a
      template literal applies. *)

From Stdlib Require Import ZArith NArith List Bool Lia Permutation SpecFloat.
From Stdlib.Strings Require Import Byte.
Import ListNotations.

Local Open Scope Z_scope.
Local Open Scope list_scope.

(** ** JavaScript strings *)

Definition jsstring := list N.

(** *** String literals

    A literal is read from its UTF-8 bytes into UTF-16 code units. *)

Definition utf8_emit (cp : N) : jsstring :=
  if (cp <? 65536)%N then [cp]
  else [(55296 + (cp - 65536) / 1024)%N; (56320 + (cp - 65536) mod 1024)%N].

(** [utf8_decode s acc k]: [k] continuation bytes are still expected for the
    code point accumulated in [acc]. *)
Fixpoint utf8_decode (s : list byte) (acc : N) (k : nat) : jsstring :=
  match s with
  | [] => []
  | a :: s' =>
      let b := Byte.to_N a in
      match k with
      | O =>
          if (b <? 128)%N then b :: utf8_decode s' 0%N O
          else if (b <? 224)%N then utf8_decode s' (b mod 32)%N 1%nat
          else if (b <? 240)%N then utf8_decode s' (b mod 16)%N 2%nat
          else utf8_decode s' (b mod 8)%N 3%nat
      | S O => utf8_emit (acc * 64 + b mod 64)%N ++ utf8_decode s' 0%N O
      | S k' => utf8_decode s' (acc * 64 + b mod 64)%N k'
      end
  end.

Definition utf8_encode_unit (c : N) : option (list byte) :=
  if (c <? 128)%N then option_map (fun b => [b]) (Byte.of_N c)
  else if (c <? 2048)%N then
    match Byte.of_N (192 + c / 64), Byte.of_N (128 + c mod 64) with
    | Some b1, Some b2 => Some [b1; b2]
    | _, _ => None
    end
  else if (c <? 55296)%N || ((57344 <=? c)%N && (c <? 65536)%N) then
    match Byte.of_N (224 + c / 4096), Byte.of_N (128 + (c / 64) mod 64),
          Byte.of_N (128 + c mod 64) with
    | Some b1, Some b2, Some b3 => Some [b1; b2; b3]
    | _, _, _ => None
    end
  else None.

Inductive literal_units :=
| LitNil
| LitCons (c : N) (rest : literal_units).

Fixpoint literal_of_units (s : jsstring) : literal_units :=
  match s with
  | [] => LitNil
  | c :: s' => LitCons c (literal_of_units s')
  end.

Definition literal_of_bytes (s : list byte) : literal_units :=
  literal_of_units (utf8_decode s 0%N O).

Fixpoint bytes_of_literal (l : literal_units) : option (list byte) :=
  match l with
  | LitNil => Some []
  | LitCons c l' =>
      match utf8_encode_unit c, bytes_of_literal l' with
      | Some bs, Some rest => Some (bs ++ rest)
      | _, _ => None
      end
  end.

Declare Scope js_scope.
Delimit Scope js_scope with js.
#[warnings="-via-type-remapping,-via-type-mismatch"]
String Notation jsstring literal_of_bytes bytes_of_literal
  (via literal_units mapping [[nil] => LitNil, [cons] => LitCons]) : js_scope.
Local Open Scope js_scope.

Fixpoint jsstring_eqb (a b : jsstring) : bool :=
  match a, b with
  | [], [] => true
  | x :: a', y :: b' => (x =? y)%N && jsstring_eqb a' b'
  | _, _ => false
  end.

(** [s.startsWith(p)] *)
Fixpoint startsWith (s p : jsstring) : bool :=
  match p, s with
  | [], _ => true
  | y :: p', x :: s' => (x =? y)%N && startsWith s' p'
  | _ :: _, [] => false
  end.

(** ECMAScript LineTerminator: LF, CR, LS, PS. *)
Definition is_line_terminator (c : N) : bool :=
  ((c =? 10) || (c =? 13) || (c =? 8232) || (c =? 8233))%N.

(** ECMAScript WhiteSpace and LineTerminator: what [\s] matches and what
    [trim] strips. *)
Definition is_whitespace (c : N) : bool :=
  ((c =? 9) || (c =? 11) || (c =? 12) || (c =? 32) || (c =? 160)
   || (c =? 5760) || ((8192 <=? c) && (c <=? 8202)) || (c =? 8239)
   || (c =? 8287) || (c =? 12288) || (c =? 65279))%N
  || is_line_terminator c.

(** The character class [[a-zA-Z]]. *)
Definition is_letter (c : N) : bool :=
  (((65 <=? c) && (c <=? 90)) || ((97 <=? c) && (c <=? 122)))%N.

Fixpoint trimStart (s : jsstring) : jsstring :=
  match s with
  | c :: s' => if is_whitespace c then trimStart s' else s
  | [] => []
  end.

Definition trimEnd (s : jsstring) : jsstring := rev (trimStart (rev s)).

(** [s.trim()] *)
Definition trim (s : jsstring) : jsstring := trimEnd (trimStart s).

(** ** JavaScript numbers

    A number is a binary64 floating-point number: a zero, an infinity, NaN,
    or a sign, a mantissa and an exponent, of value [m * 2^e]. *)

Definition number := spec_float.

(** The number nearest to [m * 2^e]; it is [m * 2^e] itself when 53 bits
    hold the mantissa. *)
Definition number_of_dyadic (m e : Z) : number := binary_normalize 53 1024 m e false.

Definition number_of_Z (n : Z) : number := number_of_dyadic n 0.

(** [x + y] on numbers: round to nearest, ties to even. *)
Definition number_add (x y : number) : number := SFadd 53 1024 x y.

(** *** Number::toString

    The shortest decimal digits [s], [k] of them, with a decimal exponent
    [n], such that [s * 10^(n-k)] rounds to the number, the nearest to the
    number when several exist; then written plainly for [n] up to 21, with a
    fraction for [n] above -6, and with an exponent otherwise. *)

(** Decimal digits as code units. *)
Fixpoint digits (d : Decimal.uint) : jsstring :=
  match d with
  | Decimal.Nil => []
  | Decimal.D0 d' => 48%N :: digits d'
  | Decimal.D1 d' => 49%N :: digits d'
  | Decimal.D2 d' => 50%N :: digits d'
  | Decimal.D3 d' => 51%N :: digits d'
  | Decimal.D4 d' => 52%N :: digits d'
  | Decimal.D5 d' => 53%N :: digits d'
  | Decimal.D6 d' => 54%N :: digits d'
  | Decimal.D7 d' => 55%N :: digits d'
  | Decimal.D8 d' => 56%N :: digits d'
  | Decimal.D9 d' => 57%N :: digits d'
  end.

Definition natural_digits (n : Z) : jsstring :=
  match n with
  | Zpos p => digits (Pos.to_uint p)
  | _ => "0"
  end.

(** [a * 2^e] compared with [c * 10^q]. *)
Definition compare_scaled (a e c q : Z) : comparison :=
  (a * 2 ^ Z.max e 0 * 10 ^ Z.max (- q) 0
   ?= c * 10 ^ Z.max q 0 * 2 ^ Z.max (- e) 0).

Fixpoint adjust_exponent (fuel : nat) (m e n : Z) : Z :=
  match fuel with
  | O => n
  | S fuel' =>
      match compare_scaled m e 1 n with
      | Lt =>
          match compare_scaled m e 1 (n - 1) with
          | Lt => adjust_exponent fuel' m e (n - 1)
          | _ => n
          end
      | _ => adjust_exponent fuel' m e (n + 1)
      end
  end.

(** The [n] with [10^(n-1) <= m * 2^e < 10^n]. *)
Definition decimal_exponent (m : positive) (e : Z) : Z :=
  let bits := Z.pos (digits2_pos m) + e in
  adjust_exponent 4 (Z.pos m) e ((bits - 1) * 30103 / 100000 + 1).

(** Whether [c * 10^q] rounds to the double [m * 2^e]: it lies between the
    midpoints to the two neighbours, the midpoints included when the
    mantissa is even. *)
Definition rounds_to (m : positive) (e c q : Z) : bool :=
  let even := Z.even (Z.pos m) in
  let below_upper :=
    match compare_scaled (2 * Z.pos m + 1) (e - 1) c q with
    | Gt => true
    | Eq => even
    | Lt => false
    end in
  let above_lower :=
    match (if (Z.pos m =? 2 ^ 52) && (-1074 <? e)
           then compare_scaled (4 * Z.pos m - 1) (e - 2) c q
           else compare_scaled (2 * Z.pos m - 1) (e - 1) c q) with
    | Lt => true
    | Eq => even
    | Gt => false
    end in
  below_upper && above_lower.

(** The candidate of [k] digits for the double [m * 2^e]. *)
Definition candidate (m : positive) (e n k : Z) : option Z :=
  let q := n - k in
  let num := Z.pos m * 2 ^ Z.max e 0 * 10 ^ Z.max (- q) 0 in
  let den := 2 ^ Z.max (- e) 0 * 10 ^ Z.max q 0 in
  let low := num / den in
  let high := low + 1 in
  let low_ok := rounds_to m e low q in
  let high_ok := rounds_to m e high q in
  let low_first :=
    match (2 * num ?= (2 * low + 1) * den) with
    | Lt => true
    | Eq => Z.even low
    | Gt => false
    end in
  if low_first then
    if low_ok then Some low else if high_ok then Some high else None
  else
    if high_ok then Some high else if low_ok then Some low else None.

Fixpoint shortest (ks : list Z) (m : positive) (e n : Z) : Z * Z * Z :=
  match ks with
  | [] => (17, n, Z.pos m * 2 ^ Z.max e 0 * 10 ^ Z.max (17 - n) 0
                  / (2 ^ Z.max (- e) 0 * 10 ^ Z.max (n - 17) 0))
  | k :: ks' =>
      match candidate m e n k with
      | Some s => if s =? 10 ^ k then (1, n + 1, 1) else (k, n, s)
      | None => shortest ks' m e n
      end
  end.

Definition zeros (n : Z) : jsstring := repeat 48%N (Z.to_nat n).

Definition exponent_part (n : Z) : jsstring :=
  "e" ++ (if 0 <=? n - 1 then "+" else "-") ++ natural_digits (Z.abs (n - 1)).

(** Number::toString of a positive finite double. *)
Definition positive_toString (m : positive) (e : Z) : jsstring :=
  let '(k, n, s) :=
    shortest [1; 2; 3; 4; 5; 6; 7; 8; 9; 10; 11; 12; 13; 14; 15; 16; 17]
      m e (decimal_exponent m e) in
  let ds := natural_digits s in
  if (k <=? n) && (n <=? 21) then ds ++ zeros (n - k)
  else if (0 <? n) && (n <=? 21) then
    firstn (Z.to_nat n) ds ++ "." ++ skipn (Z.to_nat n) ds
  else if (-6 <? n) && (n <=? 0) then "0." ++ zeros (- n) ++ ds
  else if k =? 1 then ds ++ exponent_part n
  else firstn 1 ds ++ "." ++ skipn 1 ds ++ exponent_part n.

(** Number::toString, radix 10. *)
Definition number_toString (x : number) : jsstring :=
  match x with
  | S754_nan => "NaN"
  | S754_zero _ => "0"
  | S754_infinity false => "Infinity"
  | S754_infinity true => "-Infinity"
  | S754_finite false m e => positive_toString m e
  | S754_finite true m e => "-" ++ positive_toString m e
  end.

(** ** JavaScript values held by a constant node *)

Inductive Value :=
| VNum (x : number)
| VStr (s : jsstring)
| VBool (b : bool)
| VNull
| VUndefined.

(** [typeof v === 'number'] *)
Definition typeof_number (v : Value) : bool :=
  match v with
  | VNum _ => true
  | _ => false
  end.

(** [String(v)], the conversion a template literal applies. *)
Definition toText (v : Value) : jsstring :=
  match v with
  | VNum x => number_toString x
  | VStr s => s
  | VBool true => "true"
  | VBool false => "false"
  | VNull => "null"
  | VUndefined => "undefined"
  end.

(** [v + 1]: addition on a number, concatenation on a string, and addition
    after conversion to a number on the other values. *)
Definition plus_one (v : Value) : Value :=
  match v with
  | VNum x => VNum (number_add x (number_of_Z 1))
  | VStr s => VStr (s ++ "1")
  | VBool true => VNum (number_add (number_of_Z 1) (number_of_Z 1))
  | VBool false => VNum (number_add (number_of_Z 0) (number_of_Z 1))
  | VNull => VNum (number_add (number_of_Z 0) (number_of_Z 1))
  | VUndefined => VNum (number_add S754_nan (number_of_Z 1))
  end.

(** [v === 0]: true of the two zeros. *)
Definition is_zero (v : Value) : bool :=
  match v with
  | VNum (S754_zero _) => true
  | _ => false
  end.

(** ** Expression trees

    The node kinds of MathJS that the source tells apart by their [type]
    tag, with the fields it reads: [value], [name], [op] and [args].
    [FunctionNode] and [ParenthesisNode] stand for the kinds that carry none
    of the tested tags. *)

#[warnings="-register-all"]
Inductive Node :=
| ConstantNode (value : Value)
| SymbolNode (name : jsstring)
| OperatorNode (op : jsstring) (args : list Node)
| FunctionNode (fn : jsstring) (args : list Node)
| ParenthesisNode (content : Node).

(** ** Exceptions *)

Inductive outcome (A : Type) :=
| Ret (a : A)
| Throw (message : jsstring).
Arguments Ret {A} a.
Arguments Throw {A} message.

Definition bind {A B} (c : outcome A) (k : A -> outcome B) : outcome B :=
  match c with
  | Ret a => k a
  | Throw m => Throw m
  end.

(** [try { body } catch (e) { handler(e.message) }] *)
Definition try_catch {A} (body : outcome A) (handler : jsstring -> outcome A)
  : outcome A :=
  match body with
  | Ret a => Ret a
  | Throw m => handler m
  end.

Notation "x <- c ;; k" := (bind c (fun x => k))
  (at level 61, c at next level, right associativity).

(** ** [integrate] (src/app.js, lines 78-138) *)

Section Integrate.

(** [math.parse] *)
Variable parse : jsstring -> outcome Node.

(** [args[i]] of an operator node; [None] is JavaScript's [undefined]. *)
Definition arg (args : list Node) (i : nat) : option Node := nth_error args i.

(** Each block of the function either returns (here [Some]) or falls
    through to the next block ([None]). *)

(** Lines 84-96, "Handle polynomial integration: x^n -> x^(n+1)/(n+1)". *)
Definition integrate_power (parsed : Node) (variable : jsstring)
  : option (outcome Node) :=
  match parsed with
  | OperatorNode op args =>
      if jsstring_eqb op "^" then
        let base := arg args 0 in
        let exponent := arg args 1 in
        match base with
        | Some (SymbolNode name) =>
            if jsstring_eqb name variable then
              match exponent with
              | Some (ConstantNode value) =>
                  if typeof_number value then
                    let newExp := plus_one value in
                    if is_zero newExp then
                      Some (parse ("ln(" ++ variable ++ ")"))
                    else
                      Some (parse ("(" ++ variable ++ "^" ++ toText newExp
                                      ++ ")/" ++ toText newExp))
                  else None
              | _ => None
              end
            else None
        | _ => None
        end
      else None
  | _ => None
  end.

(** Lines 99-115, "Handle multiplication: c*x^n where c is constant". *)
Definition integrate_constant_power (parsed : Node) (variable : jsstring)
  : option (outcome Node) :=
  match parsed with
  | OperatorNode op args =>
      if jsstring_eqb op "*" then
        let left := arg args 0 in
        let right := arg args 1 in
        match left, right with
        | Some (ConstantNode coeff), Some (OperatorNode rop rargs) =>
            if jsstring_eqb rop "^" then
              let base := arg rargs 0 in
              let exp := arg rargs 1 in
              match base, exp with
              | Some (SymbolNode name), Some (ConstantNode value) =>
                  if jsstring_eqb name variable then
                    let newExp := plus_one value in
                    if is_zero newExp then
                      Some (parse (toText coeff ++ " * ln(" ++ variable ++ ")"))
                    else
                      Some (parse ("(" ++ toText coeff ++ " * " ++ variable
                                      ++ "^" ++ toText newExp ++ ")/"
                                      ++ toText newExp))
                  else None
              | _, _ => None
              end
            else None
        | _, _ => None
        end
      else None
  | _ => None
  end.

(** Lines 118-120, "Handle simple cases: x -> x^2/2". *)
Definition integrate_symbol (parsed : Node) (variable : jsstring)
  : option (outcome Node) :=
  match parsed with
  | SymbolNode name =>
      if jsstring_eqb name variable then
        Some (parse ("(" ++ variable ++ "^2)/2"))
      else None
  | _ => None
  end.

(** Lines 123-131, "Handle constants multiplied by x: c*x -> c*x^2/2".
    The coefficient is [left.value] when the left operand is the constant
    and [right.value] otherwise. *)
Definition integrate_constant_symbol (parsed : Node) (variable : jsstring)
  : option (outcome Node) :=
  match parsed with
  | OperatorNode op args =>
      if jsstring_eqb op "*" then
        let left := arg args 0 in
        let right := arg args 1 in
        match left, right with
        | Some (ConstantNode coeff), Some (SymbolNode name) =>
            if jsstring_eqb name variable then
              Some (parse ("(" ++ toText coeff ++ " * " ++ variable
                              ++ "^2)/2"))
            else None
        | Some (SymbolNode name), Some (ConstantNode coeff) =>
            if jsstring_eqb name variable then
              Some (parse ("(" ++ toText coeff ++ " * " ++ variable
                              ++ "^2)/2"))
            else None
        | _, _ => None
        end
      else None
  | _ => None
  end.

(** Line 134. *)
Definition unsupported_message (expression : jsstring) : jsstring :=
  "Integration not yet supported for: " ++ expression
    ++ ". Try: x, x^2, x^3, 2*x, etc.".

(** The blocks in the order of the source; the enclosing
    [try { ... } catch (e) { throw e; }] rethrows unchanged. *)
Definition integrate (expression variable : jsstring) : outcome Node :=
  parsed <- parse expression ;;
  match integrate_power parsed variable with
  | Some r => r
  | None =>
  match integrate_constant_power parsed variable with
  | Some r => r
  | None =>
  match integrate_symbol parsed variable with
  | Some r => r
  | None =>
  match integrate_constant_symbol parsed variable with
  | Some r => r
  | None => Throw (unsupported_message expression)
  end end end end.

End Integrate.

(** ** The dispatcher *)

(** What a call of [solveInput] does to the displayed result: it either calls
    [setResult(text)] or returns without calling it. *)
Inductive display :=
| SetResult (text : jsstring)
| Unchanged.

Definition no_line_terminator (s : jsstring) : bool :=
  forallb (fun c => negb (is_line_terminator c)) s.

(** The match of [expr] against the integral pattern of line 148, as the
    pair of its two groups: the integral sign, [\s*], a lazy group of any
    characters but line terminators, [\s*], [d] and one letter of
    [[a-zA-Z]].  The anchors pin the integral sign to the first code unit
    and [d] and the letter to the last two.  Of what lies between, the
    greedy [\s*] on either side leaves to the lazy group exactly the text
    without its leading and trailing white space, and [.] refuses a line
    terminator inside it. *)
Definition regex_integral (expr : jsstring) : option (jsstring * jsstring) :=
  match expr with
  | c :: rest =>
      if (c =? 8747)%N then
        match rev rest with
        | l :: d :: between =>
            if (d =? 100)%N && is_letter l then
              let body := trim (rev between) in
              if no_line_terminator body then Some (body, [l]) else None
            else None
        | _ => None
        end
      else None
  | [] => None
  end.

(** The match of [expr] against the derivative pattern of line 183, as the
    pair of its two groups: [d/d], one letter of [[a-zA-Z]], at least one
    white space ([\s+]), and after the longest run of white space a greedy
    group of any characters but line terminators, up to the end. *)
Definition regex_derivative (expr : jsstring) : option (jsstring * jsstring) :=
  match expr with
  | d1 :: slash :: d2 :: l :: w :: rest =>
      if (d1 =? 100)%N && (slash =? 47)%N && (d2 =? 100)%N
         && is_letter l && is_whitespace w then
        let body := trimStart rest in
        if no_line_terminator body then Some ([l], body) else None
      else None
  | _ => None
  end.

(** The MathJS global as [solveInput] of src/app.js probes it: [math] itself
    may be undefined, and so may each of its functions. *)
Record MathJS := {
  math_parse : option (jsstring -> outcome Node);
  math_derivative : option (jsstring -> jsstring -> outcome Node);
  math_simplify : option (Node -> outcome Node);
  node_toString : Node -> outcome jsstring
}.

(** Lines 165-171 and 200-206: "Try to simplify if available, otherwise just
    convert to string". *)
Definition render (M : MathJS) (tree : Node) : outcome jsstring :=
  match math_simplify M with
  | Some simplify => simplified <- simplify tree ;; node_toString M simplified
  | None => node_toString M tree
  end.

(** [solveInput] (src/app.js, lines 141-223). *)
Definition solveInput (math : option MathJS) (input : jsstring) : outcome display :=
  try_catch
    (let expr := trim input in
     if startsWith expr "∫" then
       match regex_integral expr with
       | Some (group1, group2) =>
           let body := trim group1 in
           let variable := group2 in
           match math with
           | None =>
               Ret (SetResult "Error: MathJS is not loaded. Please check your internet connection.")
           | Some M =>
               match math_parse M with
               | None =>
                   Ret (SetResult "Error: MathJS parse function is not available. The browser build may be incomplete.")
               | Some parse =>
                   try_catch
                     (integral <- integrate parse body variable ;;
                      result <- render M integral ;;
                      Ret (SetResult result))
                     (fun message => Ret (SetResult ("Error: " ++ message)))
               end
           end
       | None =>
           Ret (SetResult "Invalid integral format. Use: ∫ expression dx (e.g., ∫ x^2 dx)")
       end
     else if startsWith expr "d/d" then
       match regex_derivative expr with
       | Some (group1, group2) =>
           let variable := group1 in
           let body := trim group2 in
           match math with
           | None =>
               Ret (SetResult "Error: MathJS is not loaded. Please check your internet connection.")
           | Some M =>
               match math_derivative M with
               | None =>
                   Ret (SetResult "Error: MathJS derivative function is not available.")
               | Some derivative =>
                   try_catch
                     (derived <- derivative body variable ;;
                      result <- render M derived ;;
                      Ret (SetResult result))
                     (fun message => Ret (SetResult ("Error: " ++ message)))
               end
           end
       | None =>
           Ret (SetResult "Invalid derivative format. Use: d/dx expression (e.g., d/dx x^2)")
       end
     else
       Ret (SetResult "Please start your input with ∫ (for integral) or d/dx (for derivative)."))
    (fun message => Ret (SetResult ("Error: " ++ message))).

(** ** The two patterns, declaratively

    What the regular expressions of lines 148 and 183 accept, as
    decompositions of the text. *)

Definition all_whitespace (s : jsstring) : bool := forallb is_whitespace s.

(** The integral sign, white space, a body without line terminator, white
    space, [d] and a letter. *)
Definition integral_pattern (expr body variable : jsstring) : Prop :=
  exists w1 w2 l,
    expr = "∫" ++ w1 ++ body ++ w2 ++ "d" ++ [l]
    /\ all_whitespace w1 = true /\ all_whitespace w2 = true
    /\ no_line_terminator body = true
    /\ is_letter l = true /\ variable = [l].

(** [d/d], a letter, at least one white space, a body without line
    terminator. *)
Definition derivative_pattern (expr variable body : jsstring) : Prop :=
  exists l w0 w,
    expr = "d/d" ++ [l] ++ (w0 :: w) ++ body
    /\ is_letter l = true /\ all_whitespace (w0 :: w) = true
    /\ no_line_terminator body = true /\ variable = [l].

(** ** The dispatcher of the second source file (src/unnamed/part_000) *)

Module Part000.

(** This file asks MathJS for an [integral] function and tests the functions
    for truthiness; [math.derivative] may return a falsy value. *)
Record MathJS := {
  math_integral : option (jsstring -> jsstring -> outcome Node);
  math_derivative : option (jsstring -> jsstring -> outcome (option Node));
  node_toString : Node -> outcome jsstring
}.

(** The text of line 81; code unit 34 is the double quote. *)
Definition integral_unavailable : jsstring :=
  "Integral solving requires MathJS with " ++ [34%N] ++ "integral"
    ++ [34%N] ++ " extension.".

(** [solveInput] (lines 65-107).  The two [if (match)] have no [else]: when
    the regular expression fails, control leaves the [try] block without a
    call of [setResult]. *)
Definition solveInput (math : option MathJS) (input : jsstring) : outcome display :=
  try_catch
    (let expr := trim input in
     if startsWith expr "∫" then
       match regex_integral expr with
       | Some (group1, group2) =>
           let body := group1 in
           let variable := group2 in
           match math with
           | Some M =>
               match math_integral M with
               | Some integral =>
                   tree <- integral body variable ;;
                   text <- node_toString M tree ;;
                   Ret (SetResult ("" ++ text))
               | None =>
                   Ret (SetResult integral_unavailable)
               end
           | None =>
               Ret (SetResult integral_unavailable)
           end
       | None => Ret Unchanged
       end
     else if startsWith expr "d/d" then
       match regex_derivative expr with
       | Some (group1, group2) =>
           let variable := group1 in
           let body := group2 in
           match math with
           | Some M =>
               match math_derivative M with
               | Some derivative =>
                   d <- derivative body variable ;;
                   match d with
                   | Some tree => text <- node_toString M tree ;; Ret (SetResult text)
                   | None => Ret (SetResult "Error computing derivative")
                   end
               | None => Ret (SetResult "Differentiation requires MathJS.")
               end
           | None => Ret (SetResult "Differentiation requires MathJS.")
           end
       | None => Ret Unchanged
       end
     else
       Ret (SetResult "Please start your input with ∫ (for integral) or d/dx (for derivative)."))
    (fun message => Ret (SetResult ("Error: " ++ message))).

End Part000.

(** ** The rule table

    The specification presents [integrate] as an ordered table of four
    rules, each a recognizer paired with a transform, of which the first
    that recognizes the body is applied.  The rules of the table below are
    the four blocks of the source, and the recognizers are the tests that
    the blocks apply. *)

(** ** Tree shapes of the rule table *)

Definition Num (n : Z) : Node := ConstantNode (VNum (number_of_Z n)).
Definition Sym (v : jsstring) : Node := SymbolNode v.
Definition Pow (a b : Node) : Node := OperatorNode "^" [a; b].
Definition Mul (a b : Node) : Node := OperatorNode "*" [a; b].
Definition Div (a b : Node) : Node := OperatorNode "/" [a; b].

(** The unary minus.  MathJS has no negative number literal: [math.parse]
    returns a sign in front of an operand as the operator [-] applied to
    that one operand. *)
Definition Neg (a : Node) : Node := OperatorNode "-" [a].

(** A stand-in for [math.parse] that knows the texts of a table and throws
    on every other text. *)
Fixpoint table_parse (table : list (jsstring * Node)) (text : jsstring)
  : outcome Node :=
  match table with
  | [] => Throw "Unexpected text"
  | (known, tree) :: table' =>
      if jsstring_eqb known text then Ret tree else table_parse table' text
  end.

(** The recognizers: for each block, the test under which it returns. *)

(** Block 1: the body is a power of the symbol [variable] to a constant
    whose value is a number. *)
Definition recognizes_power (body : Node) (variable : jsstring) : bool :=
  match body with
  | OperatorNode op (SymbolNode s :: ConstantNode n :: _) =>
      jsstring_eqb op "^" && jsstring_eqb s variable && typeof_number n
  | _ => false
  end.

(** Block 2: the body is a constant times a power of the symbol [variable]
    to a constant; the source tests the value of neither constant. *)
Definition recognizes_constant_power (body : Node) (variable : jsstring) : bool :=
  match body with
  | OperatorNode op
      (ConstantNode _ :: OperatorNode op' (SymbolNode s :: ConstantNode _ :: _) :: _) =>
      jsstring_eqb op "*" && jsstring_eqb op' "^" && jsstring_eqb s variable
  | _ => false
  end.

(** Block 3: the body is the symbol [variable]. *)
Definition recognizes_symbol (body : Node) (variable : jsstring) : bool :=
  match body with
  | SymbolNode s => jsstring_eqb s variable
  | _ => false
  end.

(** Block 4: the body is a product of a constant and the symbol [variable],
    in either operand order; the source does not test the value of the
    constant. *)
Definition recognizes_constant_symbol (body : Node) (variable : jsstring) : bool :=
  match body with
  | OperatorNode op (ConstantNode _ :: SymbolNode s :: _)
  | OperatorNode op (SymbolNode s :: ConstantNode _ :: _) =>
      jsstring_eqb op "*" && jsstring_eqb s variable
  | _ => false
  end.

Definition recognizers : list (Node -> jsstring -> bool) :=
  [recognizes_power; recognizes_constant_power; recognizes_symbol;
   recognizes_constant_symbol].

(** The number of rules that recognize a body. *)
Definition matching_rules (body : Node) (variable : jsstring) : nat :=
  List.length (filter (fun recognizer => recognizer body variable) recognizers).

(** A rule of the table: [None] when its recognizer rejects the body, the
    outcome of its transform otherwise. *)
Definition Rule := Node -> jsstring -> option (outcome Node).

(** The blocks of [integrate], in the order of the source. *)
Definition rule_table (parse : jsstring -> outcome Node) : list Rule :=
  [integrate_power parse; integrate_constant_power parse;
   integrate_symbol parse; integrate_constant_symbol parse].

Fixpoint first_match (rules : list Rule) (body : Node) (variable : jsstring)
  : option (outcome Node) :=
  match rules with
  | [] => None
  | rule :: rules' =>
      match rule body variable with
      | Some r => Some r
      | None => first_match rules' body variable
      end
  end.

(** The rule engine with its rules tried in the order of [rules]. *)
Definition integrate_in_order (parse : jsstring -> outcome Node)
    (rules : list Rule) (expression variable : jsstring) : outcome Node :=
  parsed <- parse expression ;;
  match first_match rules parsed variable with
  | Some r => r
  | None => Throw (unsupported_message expression)
  end.

Definition returns (r : option (outcome Node)) : bool :=
  match r with
  | Some _ => true
  | None => false
  end.

(** ** The rules in the words of the specification

    Section 4.2 of the specification states the four rules over its own
    expression tree, whose [Constant] holds a number and whose [BinaryOp]
    has two operands. *)

(** Rule 1: [BinaryOp(power, Symbol(s), Constant(n))] with [s == variable]. *)
Definition spec_power_rule (body : Node) (variable : jsstring) : bool :=
  match body with
  | OperatorNode op [SymbolNode s; ConstantNode (VNum _)] =>
      jsstring_eqb op "^" && jsstring_eqb s variable
  | _ => false
  end.

(** Rule 2: [BinaryOp(multiply, Constant(c), BinaryOp(power, Symbol(s),
    Constant(n)))] with [s == variable]. *)
Definition spec_constant_power_rule (body : Node) (variable : jsstring) : bool :=
  match body with
  | OperatorNode op
      [ConstantNode (VNum _);
       OperatorNode op' [SymbolNode s; ConstantNode (VNum _)]] =>
      jsstring_eqb op "*" && jsstring_eqb op' "^" && jsstring_eqb s variable
  | _ => false
  end.

(** Rule 3: [Symbol(s)] with [s == variable]. *)
Definition spec_symbol_rule (body : Node) (variable : jsstring) : bool :=
  match body with
  | SymbolNode s => jsstring_eqb s variable
  | _ => false
  end.

(** Rule 4: [BinaryOp(multiply, A, B)] where one of the two is
    [Constant(c)] and the other [Symbol(s)] with [s == variable]. *)
Definition spec_constant_symbol_rule (body : Node) (variable : jsstring) : bool :=
  match body with
  | OperatorNode op [ConstantNode (VNum _); SymbolNode s]
  | OperatorNode op [SymbolNode s; ConstantNode (VNum _)] =>
      jsstring_eqb op "*" && jsstring_eqb s variable
  | _ => false
  end.

(** The number of rules of the specification that a body matches. *)
Definition spec_matching_rules (body : Node) (variable : jsstring) : nat :=
  List.length
    (filter (fun rule => rule body variable)
       [spec_power_rule; spec_constant_power_rule; spec_symbol_rule;
        spec_constant_symbol_rule]).

(** ** The on-screen keyboard (lines 18-75 of src/app.js, the same text in
    the second file) *)

(** The keys: a label and the value it inserts. *)
Definition SYMBOLS : list (jsstring * jsstring) :=
  [ ("∫", "∫"); ("d/dx", "d/dx "); ("dx", "dx"); ("dy", "dy"); ("∂", "∂");
    ("∞", "∞"); ("π", "π"); ("√", "√"); ("^", "^"); ("(", "("); (")", ")");
    ("e", "e"); ("sin", "sin"); ("cos", "cos"); ("tan", "tan"); ("ln", "ln");
    ("log", "log") ].

(** The value inserted by the key that carries a label: each button calls
    [insertSymbol(s.value)]. *)
Definition key_value (label : jsstring) : option jsstring :=
  option_map snd (find (fun key => jsstring_eqb (fst key) label) SYMBOLS).

(** The text field as [insertSymbol] reads it: the two ends of the
    selection, in code units. *)
Record Selection := {
  selectionStart : nat;
  selectionEnd : nat
}.

(** What [insertSymbol] brings about: the text given to [setInput] and the
    position the deferred callback assigns to both ends of the selection. *)
Record Insertion := {
  newInput : jsstring;
  cursor : nat
}.

(** [insertSymbol]; [el] is [inputRef.current], [None] when the field is not
    mounted.  [input.slice(0, start)] is [firstn start input] and
    [input.slice(end)] is [skipn end input], also out of range. *)
Definition insertSymbol (el : option Selection) (input symbol : jsstring)
  : option Insertion :=
  match el with
  | None => None
  | Some el =>
      let start := selectionStart el in
      let end_ := selectionEnd el in
      Some {| newInput := firstn start input ++ symbol ++ skipn end_ input;
              cursor := (start + List.length symbol)%nat |}
  end.

(** The selection after the deferred callback has run. *)
Definition collapsed (position : nat) : Selection :=
  {| selectionStart := position; selectionEnd := position |}.

(** A [mousedown] as [handleClick] reads it: whether the field is mounted,
    whether it contains the target, and whether the keyboard element
    contains it ([None] when there is no element [calc-keyboard]). *)
Record MouseDown := {
  input_mounted : bool;
  target_in_input : bool;
  target_in_keyboard : option bool
}.

(** [handleFocus]: [setShowKeyboard(true)]. *)
Definition handleFocus (showKeyboard : bool) : bool := true.

(** [handleClick]: hides the keyboard when the target is outside both the
    field and the keyboard. *)
Definition handleClick (e : MouseDown) (showKeyboard : bool) : bool :=
  if negb (input_mounted e) then showKeyboard
  else if negb (target_in_input e)
          && negb (match target_in_keyboard e with
                   | Some inside => inside
                   | None => false
                   end)
       then false
       else showKeyboard.

Inductive event :=
| Focus
| Click (e : MouseDown).

Definition handle (showKeyboard : bool) (ev : event) : bool :=
  match ev with
  | Focus => handleFocus showKeyboard
  | Click e => handleClick e showKeyboard
  end.

(** The visibility of the keyboard after a sequence of events. *)
Definition visibility (showKeyboard : bool) (events : list event) : bool :=
  fold_left handle events showKeyboard.

(** A click that [handleClick] answers by hiding the keyboard. *)
Definition hides (ev : event) : bool :=
  match ev with
  | Focus => false
  | Click e =>
      input_mounted e && negb (target_in_input e)
      && negb (match target_in_keyboard e with
               | Some inside => inside
               | None => false
               end)
  end.

Definition is_focus (ev : event) : bool :=
  match ev with
  | Focus => true
  | Click _ => false
  end.

(** ** Stand-ins for MathJS, for the worked examples *)

(** A parser that knows a handful of texts, with the trees MathJS returns
    for them: a sign is a unary minus, parentheses are kept as a node, a
    quoted text and [true] are constants.  Code unit 34 is the double
    quote. *)
Definition sample_parse : jsstring -> outcome Node :=
  table_parse
    [ ("x^2", Pow (Sym "x") (Num 2));
      ("3*x^2", Mul (Num 3) (Pow (Sym "x") (Num 2)));
      ("x^-1", Pow (Sym "x") (Neg (Num 1)));
      ("3*x^-1", Mul (Num 3) (Pow (Sym "x") (Neg (Num 1))));
      ("x^(-1)", Pow (Sym "x") (ParenthesisNode (Neg (Num 1))));
      ("x^-2", Pow (Sym "x") (Neg (Num 2)));
      ("-3*x^2", Mul (Neg (Num 3)) (Pow (Sym "x") (Num 2)));
      ("0*x^-2", Mul (Num 0) (Pow (Sym "x") (Neg (Num 2))));
      ("true*x", Mul (ConstantNode (VBool true)) (Sym "x"));
      ("2*x^" ++ [34%N] ++ "3" ++ [34%N],
       Mul (Num 2) (Pow (Sym "x") (ConstantNode (VStr "3"))));
      ("x", Sym "x");
      ("5*x", Mul (Num 5) (Sym "x"));
      ("x*5", Mul (Sym "x") (Num 5));
      ("x^2*5", Mul (Pow (Sym "x") (Num 2)) (Num 5));
      ("0*x^2", Mul (Num 0) (Pow (Sym "x") (Num 2)));
      ("x^0", Pow (Sym "x") (Num 0));
      ("sin(x)", FunctionNode "sin" [Sym "x"]);
      ("ln(x)", FunctionNode "ln" [Sym "x"]);
      ("(x^3)/3", Div (ParenthesisNode (Pow (Sym "x") (Num 3))) (Num 3));
      ("(x^2)/2", Div (ParenthesisNode (Pow (Sym "x") (Num 2))) (Num 2));
      ("(x^1)/1", Div (ParenthesisNode (Pow (Sym "x") (Num 1))) (Num 1));
      ("(3 * x^3)/3",
       Div (ParenthesisNode (Mul (Num 3) (Pow (Sym "x") (Num 3)))) (Num 3));
      ("(5 * x^2)/2",
       Div (ParenthesisNode (Mul (Num 5) (Pow (Sym "x") (Num 2)))) (Num 2));
      ("(0 * x^3)/3",
       Div (ParenthesisNode (Mul (Num 0) (Pow (Sym "x") (Num 3)))) (Num 3)) ].

(** A parser that knows the texts of a table and returns every other text
    as a symbol that carries the text: an example run with it shows the text
    that [integrate] generated. *)
Definition echo_parse (table : list (jsstring * Node)) (text : jsstring)
  : outcome Node :=
  match table_parse table text with
  | Ret tree => Ret tree
  | Throw _ => Ret (SymbolNode text)
  end.

(** A rendering in the manner of MathJS: binary operators spaced,
    parentheses kept. *)
Fixpoint sample_toString (t : Node) : jsstring :=
  match t with
  | ConstantNode value => toText value
  | SymbolNode name => name
  | OperatorNode op [a] => op ++ sample_toString a
  | OperatorNode op [a; b] =>
      sample_toString a ++ " " ++ op ++ " " ++ sample_toString b
  | FunctionNode fn [a] => fn ++ "(" ++ sample_toString a ++ ")"
  | ParenthesisNode content => "(" ++ sample_toString content ++ ")"
  | _ => []
  end.

(** A differentiator that knows [x^2]. *)
Definition sample_derivative (body variable : jsstring) : outcome Node :=
  if jsstring_eqb body "x^2" && jsstring_eqb variable "x"
  then Ret (Mul (Num 2) (Sym "x"))
  else Throw "Unexpected text".

(** A simplifier that drops an outer pair of parentheses of the left operand. *)
Definition sample_simplify (t : Node) : outcome Node :=
  match t with
  | OperatorNode op [ParenthesisNode a; b] => Ret (OperatorNode op [a; b])
  | _ => Ret t
  end.

(** MathJS without [simplify], and with it. *)
Definition math_without_simplify : MathJS :=
  {| math_parse := Some sample_parse;
     math_derivative := Some sample_derivative;
     math_simplify := None;
     node_toString := fun t => Ret (sample_toString t) |}.

Definition math_with_simplify : MathJS :=
  {| math_parse := Some sample_parse;
     math_derivative := Some sample_derivative;
     math_simplify := Some sample_simplify;
     node_toString := fun t => Ret (sample_toString t) |}.

(** MathJS as the second file probes it: no [integral], the same
    differentiator and rendering. *)
Definition math_of_part000 : Part000.MathJS :=
  {| Part000.math_integral := None;
     Part000.math_derivative :=
       Some (fun b v => tree <- sample_derivative b v ;; Ret (Some tree));
     Part000.node_toString := fun t => Ret (sample_toString t) |}.

(** * Properties *)

(** ** Strings and values *)

Example integral_sign_literal : "∫ dx" = [8747; 32; 100; 120]%N.
Proof. reflexivity. Qed.

Example number_toString_integer : number_toString (number_of_Z (-12)) = "-12".
Proof. vm_compute; reflexivity. Qed.

Example number_toString_fraction :
  number_toString (number_of_dyadic 5 (-1)) = "2.5"
  /\ number_toString (number_of_dyadic 3602879701896397 (-55)) = "0.1".
Proof. vm_compute; split; reflexivity. Qed.

Example number_toString_exponent :
  number_toString (number_of_Z (10 ^ 21)) = "1e+21"
  /\ number_toString (number_of_Z (10 ^ 20)) = "100000000000000000000"
  /\ number_toString (number_of_dyadic 1 (-1074)) = "5e-324".
Proof. vm_compute; repeat split; reflexivity. Qed.

(** Beyond 2^53 the addition of 1 rounds: 2^53 + 1 is 2^53. *)
Example plus_one_rounds :
  plus_one (VNum (number_of_Z (2 ^ 53))) = VNum (number_of_Z (2 ^ 53))
  /\ toText (VNum (number_of_Z (2 ^ 53))) = "9007199254740992"
  /\ plus_one (VNum (number_of_dyadic 1 (-1))) = VNum (number_of_dyadic 3 (-1)).
Proof. vm_compute; repeat split; reflexivity. Qed.

Lemma jsstring_eqb_refl (s : jsstring) : jsstring_eqb s s = true.
Proof.
  induction s as [|c s IH]; simpl; [reflexivity|].
  now rewrite N.eqb_refl, IH.
Qed.

Lemma jsstring_eqb_eq (a b : jsstring) : jsstring_eqb a b = true <-> a = b.
Proof.
  split.
  - revert b; induction a as [|x a IH]; intros [|y b]; simpl; try discriminate; auto.
    intros H; apply andb_true_iff in H; destruct H as [Hx Hab].
    apply N.eqb_eq in Hx; subst; f_equal; auto.
  - intros ->; apply jsstring_eqb_refl.
Qed.

Ltac step_integrate :=
  first
    [ rewrite jsstring_eqb_refl
    | progress change (jsstring_eqb "^" "^") with true
    | progress change (jsstring_eqb "*" "*") with true
    | progress change (jsstring_eqb "*" "^") with false
    | progress change (jsstring_eqb "^" "*") with false
    | progress cbv beta iota zeta delta
        [integrate_power integrate_constant_power integrate_symbol
         integrate_constant_symbol Pow Mul Num Sym Neg arg nth_error
         typeof_number] ].

Ltac run_integrate H :=
  unfold integrate; rewrite H; cbn [bind]; repeat step_integrate.

Ltac split_shape :=
  repeat match goal with
    | |- context [match ?x with _ => _ end] => is_var x; destruct x
    end.

Ltac split_tests :=
  repeat match goal with
    | |- context [jsstring_eqb ?a ?b] =>
        let E := fresh "E" in destruct (jsstring_eqb a b) eqn:E
    | |- context [typeof_number ?a] =>
        let E := fresh "E" in destruct (typeof_number a) eqn:E
    | |- context [is_zero ?a] =>
        let E := fresh "E" in destruct (is_zero a) eqn:E
    end.

Ltac shape_cases :=
  cbv beta iota zeta delta
    [returns integrate_power integrate_constant_power integrate_symbol
     integrate_constant_symbol recognizes_power recognizes_constant_power
     recognizes_symbol recognizes_constant_symbol arg nth_error];
  split_shape; cbn [andb]; split_tests; cbn [andb];
  try reflexivity; try discriminate.

Section RuleEngine.

Variable parse : jsstring -> outcome Node.





(** ** The rule table *)

Lemma caret_is_not_star (op : jsstring) :
  jsstring_eqb op "^" = true -> jsstring_eqb op "*" = false.
Proof.
  intros H; apply jsstring_eqb_eq in H; subst; reflexivity.
Qed.

(** Each block returns exactly on the bodies its recognizer accepts. *)
Lemma integrate_power_recognizer (body : Node) (variable : jsstring) :
  returns (integrate_power parse body variable) = recognizes_power body variable.
Proof. shape_cases. Qed.

Lemma integrate_constant_power_recognizer (body : Node) (variable : jsstring) :
  returns (integrate_constant_power parse body variable)
  = recognizes_constant_power body variable.
Proof. shape_cases. Qed.

Lemma integrate_symbol_recognizer (body : Node) (variable : jsstring) :
  returns (integrate_symbol parse body variable) = recognizes_symbol body variable.
Proof. shape_cases. Qed.

Lemma integrate_constant_symbol_recognizer (body : Node) (variable : jsstring) :
  returns (integrate_constant_symbol parse body variable)
  = recognizes_constant_symbol body variable.
Proof. shape_cases. Qed.

(** No two recognizers accept the same body. *)
Lemma recognizers_exclusive (body : Node) (variable : jsstring) :
  (matching_rules body variable <= 1)%nat.
Proof.
  unfold matching_rules, recognizers; cbn [filter].
  cbv beta iota delta
    [recognizes_power recognizes_constant_power recognizes_symbol
     recognizes_constant_symbol].
  split_shape; cbn [andb List.length];
    repeat match goal with
      | |- context [jsstring_eqb ?o "^"] =>
          let E := fresh "E" in
          destruct (jsstring_eqb o "^") eqn:E;
          [rewrite ?(caret_is_not_star _ E)|]
      end;
    cbn [andb List.length]; split_tests; cbn [andb List.length]; lia.
Qed.

Lemma rule_table_recognizers (body : Node) (variable : jsstring) :
  map (fun rule : Rule => returns (rule body variable)) (rule_table parse)
  = map (fun recognizer => recognizer body variable) recognizers.
Proof.
  unfold rule_table, recognizers; cbn [map].
  now rewrite integrate_power_recognizer, integrate_constant_power_recognizer,
    integrate_symbol_recognizer, integrate_constant_symbol_recognizer.
Qed.

(** Two rules of the table that both return on a body are the same rule. *)
Lemma rule_table_exclusive (body : Node) (variable : jsstring) (r1 r2 : Rule) :
  In r1 (rule_table parse) -> In r2 (rule_table parse) ->
  returns (r1 body variable) = true -> returns (r2 body variable) = true ->
  r1 body variable = r2 body variable.
Proof.
  pose proof (recognizers_exclusive body variable) as Hex.
  pose proof (integrate_power_recognizer body variable) as H1.
  pose proof (integrate_constant_power_recognizer body variable) as H2.
  pose proof (integrate_symbol_recognizer body variable) as H3.
  pose proof (integrate_constant_symbol_recognizer body variable) as H4.
  unfold matching_rules, recognizers in Hex; cbn [filter] in Hex.
  unfold rule_table; cbn [In].
  intros [<-|[<-|[<-|[<-|[]]]]] [<-|[<-|[<-|[<-|[]]]]] Ha Hb;
    try reflexivity; exfalso;
    first [rewrite H1 in Ha | rewrite H2 in Ha | rewrite H3 in Ha | rewrite H4 in Ha];
    first [rewrite H1 in Hb | rewrite H2 in Hb | rewrite H3 in Hb | rewrite H4 in Hb];
    rewrite Ha, Hb in Hex;
    repeat match type of Hex with
      | context [if ?b then _ else _] => destruct b
      end; cbn [List.length] in Hex; lia.
Qed.

Lemma first_match_permutation (body : Node) (variable : jsstring)
    (rules rules' : list Rule) :
  Permutation rules rules' ->
  (forall r1 r2, In r1 rules -> In r2 rules ->
     returns (r1 body variable) = true -> returns (r2 body variable) = true ->
     r1 body variable = r2 body variable) ->
  first_match rules body variable = first_match rules' body variable.
Proof.
  induction 1 as [|x l l' Hp IH|x y l|l l' l'' Hp1 IH1 Hp2 IH2]; intros Hex.
  - reflexivity.
  - cbn [first_match]. destruct (x body variable); [reflexivity|].
    apply IH. intros r1 r2 In1 In2. apply Hex; now right.
  - cbn [first_match].
    destruct (y body variable) eqn:Ey, (x body variable) eqn:Ex; try reflexivity.
    rewrite <- Ey, <- Ex. apply Hex.
    + now left.
    + right; now left.
    + now rewrite Ey.
    + now rewrite Ex.
  - rewrite IH1 by exact Hex. apply IH2.
    intros r1 r2 In1 In2.
    apply Hex; apply (Permutation_in _ (Permutation_sym Hp1)); assumption.
Qed.

Lemma integrate_table (expression variable : jsstring) :
  integrate parse expression variable
  = integrate_in_order parse (rule_table parse) expression variable.
Proof.
  unfold integrate, integrate_in_order, rule_table; cbn [first_match].
  destruct (parse expression) as [parsed|m]; cbn [bind]; [|reflexivity].
  destruct (integrate_power parse parsed variable); [reflexivity|].
  destruct (integrate_constant_power parse parsed variable); [reflexivity|].
  destruct (integrate_symbol parse parsed variable); [reflexivity|].
  destruct (integrate_constant_symbol parse parsed variable); reflexivity.
Qed.

(** Each canonical input is accepted by the recognizer of its own rule and
    rejected by the three others; the verdicts are listed in table order. *)
Lemma canonical_inputs (v : jsstring) (n c : Z) :
  map (fun recognizer => recognizer (Pow (Sym v) (Num n)) v) recognizers
  = [true; false; false; false]
  /\ map (fun recognizer => recognizer (Mul (Num c) (Pow (Sym v) (Num n))) v)
       recognizers
     = [false; true; false; false]
  /\ map (fun recognizer => recognizer (Sym v) v) recognizers
     = [false; false; true; false]
  /\ map (fun recognizer => recognizer (Mul (Num c) (Sym v)) v) recognizers
     = [false; false; false; true]
  /\ map (fun recognizer => recognizer (Mul (Sym v) (Num c)) v) recognizers
     = [false; false; false; true].
Proof.
  unfold recognizers; cbn [map].
  cbv beta iota delta
    [recognizes_power recognizes_constant_power recognizes_symbol
     recognizes_constant_symbol Pow Mul Sym Num typeof_number].
  rewrite !jsstring_eqb_refl.
  change (jsstring_eqb "^" "*") with false.
  repeat split.
Qed.

(** C6. No two of the four recognizers accept the same body; each canonical
    input of a rule is accepted by the recognizer of that rule and rejected
    by the three others; the rules of the table return exactly on the bodies
    their recognizers accept; and the rule engine gives the same outcome with
    its rules tried in any order as in the order of the source.  This holds
    for every body, so for those that match exactly one rule. *)
Theorem rule_table_order_independent :
  (forall body variable, (matching_rules body variable <= 1)%nat)
  /\
  (forall (v : jsstring) (n c : Z),
     map (fun recognizer => recognizer (Pow (Sym v) (Num n)) v) recognizers
     = [true; false; false; false]
     /\ map (fun recognizer => recognizer (Mul (Num c) (Pow (Sym v) (Num n))) v)
          recognizers
        = [false; true; false; false]
     /\ map (fun recognizer => recognizer (Sym v) v) recognizers
        = [false; false; true; false]
     /\ map (fun recognizer => recognizer (Mul (Num c) (Sym v)) v) recognizers
        = [false; false; false; true]
     /\ map (fun recognizer => recognizer (Mul (Sym v) (Num c)) v) recognizers
        = [false; false; false; true])
  /\
  (forall body variable,
     map (fun rule : Rule => returns (rule body variable)) (rule_table parse)
     = map (fun recognizer => recognizer body variable) recognizers)
  /\
  (forall order, Permutation order (rule_table parse) ->
   forall expression variable,
     integrate_in_order parse order expression variable
     = integrate parse expression variable).
Proof.
  split; [exact recognizers_exclusive|].
  split; [exact canonical_inputs|].
  split; [exact rule_table_recognizers|].
  intros order Hp expression variable.
  rewrite integrate_table. unfold integrate_in_order.
  destruct (parse expression) as [parsed|m]; cbn [bind]; [|reflexivity].
  rewrite (first_match_permutation parsed variable _ _ (Permutation_sym Hp));
    [reflexivity|].
  apply rule_table_exclusive.
Qed.

End RuleEngine.

(** ** White space and the two patterns *)

Lemma trimStart_prefix (s : jsstring) :
  exists w, s = w ++ trimStart s /\ all_whitespace w = true.
Proof.
  induction s as [|c s [w [Hs Hw]]]; [exists []; now split|].
  cbn [trimStart]. destruct (is_whitespace c) eqn:Hc.
  - exists (c :: w); split; [cbn; now f_equal|cbn; now rewrite Hc].
  - exists []; now split.
Qed.

Lemma trimStart_whitespace (w s : jsstring) :
  all_whitespace w = true -> trimStart (w ++ s) = trimStart s.
Proof.
  induction w as [|c w IH]; cbn; [reflexivity|].
  intros H; apply andb_true_iff in H; destruct H as [-> Hw]; auto.
Qed.

Lemma trimStart_tight (l : jsstring) (c : N) (r : jsstring) :
  is_whitespace c = false -> trimStart (l ++ c :: r) = trimStart l ++ c :: r.
Proof.
  intros Hc. induction l as [|x l IH]; cbn [trimStart app].
  - now rewrite Hc.
  - destruct (is_whitespace x); [exact IH|reflexivity].
Qed.

Lemma all_whitespace_rev (w : jsstring) :
  all_whitespace (rev w) = all_whitespace w.
Proof.
  unfold all_whitespace. induction w as [|c w IH]; [reflexivity|].
  cbn [rev forallb]. rewrite forallb_app, IH; cbn [forallb].
  rewrite andb_true_r. apply andb_comm.
Qed.

Lemma trimEnd_suffix (s : jsstring) :
  exists w, s = trimEnd s ++ w /\ all_whitespace w = true.
Proof.
  destruct (trimStart_prefix (rev s)) as [w [Hs Hw]].
  exists (rev w); split; [|now rewrite all_whitespace_rev].
  unfold trimEnd. rewrite <- rev_app_distr, <- Hs. symmetry; apply rev_involutive.
Qed.

Lemma trimEnd_whitespace (s w : jsstring) :
  all_whitespace w = true -> trimEnd (s ++ w) = trimEnd s.
Proof.
  intros Hw. unfold trimEnd. rewrite rev_app_distr, trimStart_whitespace; [reflexivity|].
  now rewrite all_whitespace_rev.
Qed.

Lemma trimEnd_cons (c : N) (s : jsstring) :
  is_whitespace c = false -> trimEnd (c :: s) = c :: trimEnd s.
Proof.
  intros Hc. unfold trimEnd. cbn [rev].
  rewrite (trimStart_tight _ _ [] Hc), rev_app_distr. reflexivity.
Qed.

(** [trim] splits a text into white space, the trimmed text, white space. *)
Lemma trim_decomposition (s : jsstring) :
  exists w1 w2, s = w1 ++ trim s ++ w2
    /\ all_whitespace w1 = true /\ all_whitespace w2 = true.
Proof.
  destruct (trimStart_prefix s) as [w1 [H1 Hw1]].
  destruct (trimEnd_suffix (trimStart s)) as [w2 [H2 Hw2]].
  exists w1, w2; repeat split; try assumption.
  unfold trim. now rewrite <- H2.
Qed.

(** White space around a text does not change what [trim] keeps of it. *)
Lemma trim_whitespace_around (w1 body w2 : jsstring) :
  all_whitespace w1 = true -> all_whitespace w2 = true ->
  trim (w1 ++ body ++ w2) = trim body.
Proof.
  intros H1 H2. unfold trim. rewrite (trimStart_whitespace _ _ H1).
  destruct (trimStart_prefix body) as [u [Hb Hu]].
  rewrite Hb at 1. rewrite <- app_assoc, (trimStart_whitespace _ _ Hu).
  destruct (trimStart body) as [|c t] eqn:Et.
  - cbn [app]. rewrite <- (app_nil_r w2), (trimStart_whitespace _ _ H2). reflexivity.
  - assert (Hc : is_whitespace c = false).
    { destruct (is_whitespace c) eqn:Hc; [|reflexivity].
      exfalso. clear - Et Hc. induction body as [|x body IH]; [discriminate|].
      cbn [trimStart] in Et. destruct (is_whitespace x) eqn:Hx; [auto|].
      injection Et as -> _. congruence. }
    cbn [app trimStart]. rewrite Hc.
    change (c :: t ++ w2) with ((c :: t) ++ w2).
    apply trimEnd_whitespace; exact H2.
Qed.

Lemma no_line_terminator_app (a b : jsstring) :
  no_line_terminator (a ++ b) = no_line_terminator a && no_line_terminator b.
Proof. apply forallb_app. Qed.

Lemma no_line_terminator_trim (s : jsstring) :
  no_line_terminator s = true -> no_line_terminator (trim s) = true.
Proof.
  destruct (trim_decomposition s) as [w1 [w2 [Hs _]]].
  intros H. rewrite Hs, !no_line_terminator_app in H.
  apply andb_true_iff in H; destruct H as [_ H].
  apply andb_true_iff in H; now destruct H.
Qed.

(** [regex_integral] accepts exactly the texts of the integral pattern, and
    its groups are a decomposition of the text. *)
Lemma regex_integral_sound (expr body variable : jsstring) :
  regex_integral expr = Some (body, variable) ->
  integral_pattern expr body variable.
Proof.
  unfold regex_integral. destruct expr as [|c rest]; [discriminate|].
  destruct (N.eqb_spec c 8747) as [->|]; [|discriminate].
  destruct (rev rest) as [|l [|d between]] eqn:Er; try discriminate.
  destruct (N.eqb_spec d 100) as [->|]; [|discriminate]. cbn [andb].
  destruct (is_letter l) eqn:Hl; [|discriminate].
  destruct (no_line_terminator (trim (rev between))) eqn:Hn; [|discriminate].
  intros H; injection H as <- <-.
  destruct (trim_decomposition (rev between)) as [w1 [w2 [Hb [H1 H2]]]].
  exists w1, w2, l; repeat split; try assumption.
  apply (f_equal (@rev N)) in Er. rewrite rev_involutive in Er. cbn [rev] in Er.
  rewrite Er. generalize dependent (trim (rev between)); intros T _ Hb.
  rewrite Hb. cbn [app]. f_equal. now rewrite <- !app_assoc.
Qed.

Lemma regex_integral_complete (expr body variable : jsstring) :
  integral_pattern expr body variable ->
  regex_integral expr = Some (trim body, variable).
Proof.
  intros [w1 [w2 [l [He [H1 [H2 [Hn [Hl ->]]]]]]]]. subst expr.
  unfold regex_integral. cbn [app]. rewrite N.eqb_refl.
  replace (w1 ++ body ++ w2 ++ 100%N :: [l])
    with ((w1 ++ body ++ w2) ++ [100%N; l]) by now rewrite <- !app_assoc.
  rewrite rev_app_distr. cbn [rev app]. rewrite N.eqb_refl, Hl. cbn [andb].
  rewrite rev_involutive, (trim_whitespace_around _ _ _ H1 H2).
  now rewrite (no_line_terminator_trim _ Hn).
Qed.

Lemma regex_integral_rejects (expr : jsstring) :
  regex_integral expr = None <->
  ~ exists body variable, integral_pattern expr body variable.
Proof.
  split.
  - intros H [body [variable Hp]].
    rewrite (regex_integral_complete _ _ _ Hp) in H. discriminate.
  - intros H. destruct (regex_integral expr) as [[body variable]|] eqn:E; [|reflexivity].
    exfalso. apply H. exists body, variable. now apply regex_integral_sound.
Qed.

(** [regex_derivative] accepts exactly the texts of the derivative pattern. *)
Lemma regex_derivative_sound (expr variable body : jsstring) :
  regex_derivative expr = Some (variable, body) ->
  derivative_pattern expr variable body.
Proof.
  unfold regex_derivative.
  destruct expr as [|d1 [|slash [|d2 [|l [|w0 rest]]]]]; try discriminate.
  destruct (N.eqb_spec d1 100) as [->|]; [|discriminate].
  destruct (N.eqb_spec slash 47) as [->|]; [|discriminate].
  destruct (N.eqb_spec d2 100) as [->|]; [|discriminate]. cbn [andb].
  destruct (is_letter l) eqn:Hl; [|discriminate].
  destruct (is_whitespace w0) eqn:Hw; [|discriminate]. cbn [andb].
  destruct (no_line_terminator (trimStart rest)) eqn:Hn; [|discriminate].
  intros H; injection H as <- <-.
  destruct (trimStart_prefix rest) as [w [Hr Hws]].
  exists l, w0, w; repeat split; try assumption.
  - cbn [app]. now rewrite <- Hr.
  - unfold all_whitespace in *. cbn [forallb]. now rewrite Hw.
Qed.

Lemma regex_derivative_complete (expr variable body : jsstring) :
  derivative_pattern expr variable body ->
  regex_derivative expr = Some (variable, trimStart body).
Proof.
  intros [l [w0 [w [He [Hl [Hw [Hn ->]]]]]]]. subst expr.
  unfold all_whitespace in Hw. cbn [forallb] in Hw.
  apply andb_true_iff in Hw; destruct Hw as [Hw0 Hw].
  unfold regex_derivative. cbn [app]. rewrite !N.eqb_refl, Hl, Hw0. cbn [andb].
  rewrite (trimStart_whitespace _ _ Hw).
  destruct (trimStart_prefix body) as [u [Hb _]].
  rewrite Hb, no_line_terminator_app in Hn.
  apply andb_true_iff in Hn; destruct Hn as [_ ->]. reflexivity.
Qed.

Lemma regex_derivative_rejects (expr : jsstring) :
  regex_derivative expr = None <->
  ~ exists variable body, derivative_pattern expr variable body.
Proof.
  split.
  - intros H [variable [body Hp]].
    rewrite (regex_derivative_complete _ _ _ Hp) in H. discriminate.
  - intros H. destruct (regex_derivative expr) as [[variable body]|] eqn:E; [|reflexivity].
    exfalso. apply H. exists variable, body. now apply regex_derivative_sound.
Qed.

(** A text that starts with [d/d] does not start with the integral sign. *)
Lemma derivative_prefix_excludes_integral (expr : jsstring) :
  startsWith expr "d/d" = true -> startsWith expr "∫" = false.
Proof.
  destruct expr as [|c rest]; [discriminate|]. cbn [startsWith].
  destruct (N.eqb_spec c 100) as [->|]; [reflexivity|discriminate].
Qed.

(** ** The dispatcher of src/app.js *)

Ltac split_dispatch :=
  repeat match goal with
    | |- context [match ?x with _ => _ end] =>
        lazymatch x with
        | context [match _ with _ => _ end] => fail
        | _ => destruct x
        end
    end.

(** Every path of [solveInput] ends in a call of [setResult]: no exception
    leaves it and no input leaves the display untouched. *)
Lemma solveInput_always_displays (math : option MathJS) (input : jsstring) :
  exists text, solveInput math input = Ret (SetResult text).
Proof.
  unfold solveInput, try_catch, bind, render; cbv zeta.
  split_dispatch; eauto.
Qed.

(** An exception of the rule engine, of the differentiator, of the simplifier
    or of the rendering is shown as [Error: ] followed by its message. *)
Lemma solveInput_reports_exception (M : MathJS) (input g1 g2 message : jsstring) :
  (forall parse,
     startsWith (trim input) "∫" = true ->
     regex_integral (trim input) = Some (g1, g2) ->
     math_parse M = Some parse ->
     (tree <- integrate parse (trim g1) g2 ;; render M tree) = Throw message ->
     solveInput (Some M) input = Ret (SetResult ("Error: " ++ message)))
  /\
  (forall derivative,
     startsWith (trim input) "∫" = false ->
     startsWith (trim input) "d/d" = true ->
     regex_derivative (trim input) = Some (g1, g2) ->
     math_derivative M = Some derivative ->
     (tree <- derivative (trim g2) g1 ;; render M tree) = Throw message ->
     solveInput (Some M) input = Ret (SetResult ("Error: " ++ message))).
Proof.
  split.
  - intros parse Hs Hr Hp Ht. unfold solveInput; cbv zeta.
    rewrite Hs, Hr, Hp. unfold bind in *.
    destruct (integrate parse (trim g1) g2) as [tree|m]; cbn [try_catch].
    + rewrite Ht. reflexivity.
    + now injection Ht as ->.
  - intros derivative Hi Hs Hr Hp Ht. unfold solveInput; cbv zeta.
    rewrite Hi, Hs, Hr, Hp. unfold bind in *.
    destruct (derivative (trim g2) g1) as [tree|m]; cbn [try_catch].
    + rewrite Ht. reflexivity.
    + now injection Ht as ->.
Qed.

(** X6. In src/app.js an input with the integral prefix, or with the
    derivative prefix, that the pattern of its kind rejects is answered by
    the usage text of that kind, whatever MathJS provides. *)
Lemma solveInput_invalid_format (math : option MathJS) (input : jsstring) :
  (startsWith (trim input) "∫" = true ->
   ~ (exists body variable, integral_pattern (trim input) body variable) ->
   solveInput math input
   = Ret (SetResult "Invalid integral format. Use: ∫ expression dx (e.g., ∫ x^2 dx)"))
  /\
  (startsWith (trim input) "d/d" = true ->
   ~ (exists variable body, derivative_pattern (trim input) variable body) ->
   solveInput math input
   = Ret (SetResult "Invalid derivative format. Use: d/dx expression (e.g., d/dx x^2)")).
Proof.
  split; intros Hs Hr; unfold solveInput; cbv zeta.
  - apply regex_integral_rejects in Hr. now rewrite Hs, Hr.
  - apply regex_derivative_rejects in Hr.
    now rewrite (derivative_prefix_excludes_integral _ Hs), Hs, Hr.
Qed.

(** C8. When the rule engine, or the differentiator, has produced a tree,
    [solveInput] displays the rendering of that tree if [math.simplify] is
    absent, and the rendering of the simplified tree if it is present. *)
Theorem solveInput_simplify_fallback
    (M : MathJS) (input g1 g2 : jsstring) (tree : Node) :
  (forall parse,
     startsWith (trim input) "∫" = true ->
     regex_integral (trim input) = Some (g1, g2) ->
     math_parse M = Some parse ->
     integrate parse (trim g1) g2 = Ret tree ->
     (math_simplify M = None ->
      forall text, node_toString M tree = Ret text ->
      solveInput (Some M) input = Ret (SetResult text))
     /\
     (forall simplify simplified text,
        math_simplify M = Some simplify ->
        simplify tree = Ret simplified ->
        node_toString M simplified = Ret text ->
        solveInput (Some M) input = Ret (SetResult text)))
  /\
  (forall derivative,
     startsWith (trim input) "d/d" = true ->
     regex_derivative (trim input) = Some (g1, g2) ->
     math_derivative M = Some derivative ->
     derivative (trim g2) g1 = Ret tree ->
     (math_simplify M = None ->
      forall text, node_toString M tree = Ret text ->
      solveInput (Some M) input = Ret (SetResult text))
     /\
     (forall simplify simplified text,
        math_simplify M = Some simplify ->
        simplify tree = Ret simplified ->
        node_toString M simplified = Ret text ->
        solveInput (Some M) input = Ret (SetResult text))).
Proof.
  split.
  - intros parse Hs Hr Hp Ht; split.
    + intros Hn text Hx. unfold solveInput, render; cbv zeta.
      rewrite Hs, Hr, Hp, Ht, Hn. cbn [bind]. rewrite Hx. reflexivity.
    + intros simplify simplified text Hn Hy Hx. unfold solveInput, render; cbv zeta.
      rewrite Hs, Hr, Hp, Ht, Hn. cbn [bind]. rewrite Hy. cbn [bind].
      rewrite Hx. reflexivity.
  - intros derivative Hs Hr Hp Ht.
    pose proof (derivative_prefix_excludes_integral _ Hs) as Hi.
    split.
    + intros Hn text Hx. unfold solveInput, render; cbv zeta.
      rewrite Hi, Hs, Hr, Hp, Ht, Hn. cbn [bind]. rewrite Hx. reflexivity.
    + intros simplify simplified text Hn Hy Hx. unfold solveInput, render; cbv zeta.
      rewrite Hi, Hs, Hr, Hp, Ht, Hn. cbn [bind]. rewrite Hy. cbn [bind].
      rewrite Hx. reflexivity.
Qed.

(** ** The dispatcher of src/unnamed/part_000 *)

(** X10. No exception leaves the [solveInput] of src/unnamed/part_000,
    whatever the input and whatever MathJS provides or throws. *)
Lemma part000_solveInput_never_throws
    (math : option Part000.MathJS) (input : jsstring) :
  exists d, Part000.solveInput math input = Ret d.
Proof.
  unfold Part000.solveInput, try_catch, bind; cbv zeta.
  split_dispatch; eauto.
Qed.

(** When the regular expression of the recognized prefix fails, it returns
    without a call of [setResult]. *)
Lemma part000_solveInput_silent
    (math : option Part000.MathJS) (input : jsstring) :
  (startsWith (trim input) "∫" = true ->
   ~ (exists body variable, integral_pattern (trim input) body variable) ->
   Part000.solveInput math input = Ret Unchanged)
  /\
  (startsWith (trim input) "d/d" = true ->
   ~ (exists variable body, derivative_pattern (trim input) variable body) ->
   Part000.solveInput math input = Ret Unchanged).
Proof.
  split; intros Hs Hr; unfold Part000.solveInput; cbv zeta.
  - apply regex_integral_rejects in Hr. now rewrite Hs, Hr.
  - apply regex_derivative_rejects in Hr.
    now rewrite (derivative_prefix_excludes_integral _ Hs), Hs, Hr.
Qed.

(** C4. On the input [∫ x], which has the integral prefix and no closing
    [d<letter>], the [solveInput] of src/unnamed/part_000 throws nothing and
    displays nothing: it returns without a call of [setResult], whatever
    MathJS provides.  The [solveInput] of src/app.js answers the same input
    with a text. *)
Theorem part000_solveInput_displays_nothing :
  (forall math, Part000.solveInput math "∫ x" = Ret Unchanged)
  /\
  (forall math, exists text, solveInput math "∫ x" = Ret (SetResult text)).
Proof.
  split.
  - intros math. reflexivity.
  - intros math. apply solveInput_always_displays.
Qed.

(** C7. On [∫ x^2], rejected by the integral pattern, and on [d/dx],
    rejected by the derivative pattern, the [solveInput] of
    src/unnamed/part_000 reports no invalid format: it leaves the display
    unchanged.  The [solveInput] of src/app.js answers both with the usage
    text of their kind. *)
Theorem part000_solveInput_invalid_format_unreported :
  (forall math,
     Part000.solveInput math "∫ x^2" = Ret Unchanged
     /\ Part000.solveInput math "d/dx" = Ret Unchanged)
  /\
  (forall math,
     solveInput math "∫ x^2"
     = Ret (SetResult "Invalid integral format. Use: ∫ expression dx (e.g., ∫ x^2 dx)")
     /\
     solveInput math "d/dx"
     = Ret (SetResult "Invalid derivative format. Use: d/dx expression (e.g., d/dx x^2)")).
Proof.
  split; intros math; split; reflexivity.
Qed.

(** ** Worked examples *)

Ltac by_evaluation H := vm_compute in H |- *; exact H.


Lemma rule_table_order_independent_witness :
  integrate_in_order sample_parse
    [integrate_constant_power sample_parse; integrate_power sample_parse;
     integrate_symbol sample_parse; integrate_constant_symbol sample_parse]
    "5*x" "x"
  = integrate sample_parse "5*x" "x".
Proof.
  exact (proj2 (proj2 (proj2 (rule_table_order_independent sample_parse))) _
           (perm_swap _ _ _) "5*x" "x").
Defined.


Lemma solveInput_simplify_fallback_witness :
  solveInput (Some math_without_simplify) "∫ x^2 dx"
  = Ret (SetResult "(x ^ 3) / 3")
  /\ solveInput (Some math_with_simplify) "∫ x^2 dx"
     = Ret (SetResult "x ^ 3 / 3")
  /\ solveInput (Some math_without_simplify) "d/dx x^2"
     = Ret (SetResult "2 * x").
Proof.
  split; [|split].
  - pose proof (proj1 (proj1 (solveInput_simplify_fallback math_without_simplify
                                "∫ x^2 dx" "x^2" "x"
                                (Div (ParenthesisNode (Pow (Sym "x") (Num 3)))
                                     (Num 3)))
                         sample_parse
                         ltac:(vm_compute; reflexivity) ltac:(vm_compute; reflexivity)
                         ltac:(vm_compute; reflexivity) ltac:(vm_compute; reflexivity))
                  ltac:(vm_compute; reflexivity)
                  "(x ^ 3) / 3" ltac:(vm_compute; reflexivity)) as H.
    by_evaluation H.
  - pose proof (proj2 (proj1 (solveInput_simplify_fallback math_with_simplify
                                "∫ x^2 dx" "x^2" "x"
                                (Div (ParenthesisNode (Pow (Sym "x") (Num 3)))
                                     (Num 3)))
                         sample_parse
                         ltac:(vm_compute; reflexivity) ltac:(vm_compute; reflexivity)
                         ltac:(vm_compute; reflexivity) ltac:(vm_compute; reflexivity))
                  sample_simplify (Div (Pow (Sym "x") (Num 3)) (Num 3))
                  "x ^ 3 / 3"
                  ltac:(vm_compute; reflexivity) ltac:(vm_compute; reflexivity)
                  ltac:(vm_compute; reflexivity)) as H.
    by_evaluation H.
  - pose proof (proj1 (proj2 (solveInput_simplify_fallback math_without_simplify
                                "d/dx x^2" "x" "x^2"
                                (Mul (Num 2) (Sym "x")))
                         sample_derivative
                         ltac:(vm_compute; reflexivity) ltac:(vm_compute; reflexivity)
                         ltac:(vm_compute; reflexivity) ltac:(vm_compute; reflexivity))
                  ltac:(vm_compute; reflexivity)
                  "2 * x" ltac:(vm_compute; reflexivity)) as H.
    by_evaluation H.
Defined.

(** * Further properties of the code *)

(** ** White space *)

Lemma trimStart_head (s : jsstring) (c : N) (t : jsstring) :
  trimStart s = c :: t -> is_whitespace c = false.
Proof.
  induction s as [|x s IH]; [discriminate|]. cbn [trimStart].
  destruct (is_whitespace x) eqn:Hx; [exact IH|].
  intros H; injection H as -> _. exact Hx.
Qed.

Lemma trimStart_blank (s : jsstring) :
  all_whitespace s = true -> trimStart s = [].
Proof.
  intros H. rewrite <- (app_nil_r s). now rewrite trimStart_whitespace.
Qed.

Lemma trimEnd_blank (s : jsstring) :
  all_whitespace s = true -> trimEnd s = [].
Proof.
  intros H. unfold trimEnd. rewrite trimStart_blank; [reflexivity|].
  now rewrite all_whitespace_rev.
Qed.

Lemma trimStart_idempotent (s : jsstring) :
  trimStart (trimStart s) = trimStart s.
Proof.
  destruct (trimStart s) as [|c t] eqn:E; [reflexivity|].
  cbn [trimStart]. now rewrite (trimStart_head _ _ _ E).
Qed.

Lemma trimStart_app_nonblank (l r : jsstring) :
  trimStart l <> [] -> trimStart (l ++ r) = trimStart l ++ r.
Proof.
  intros Hl. destruct (trimStart_prefix l) as [w [Hs Hw]].
  destruct (trimStart l) as [|c t] eqn:E; [contradiction|].
  rewrite Hs at 1. rewrite <- app_assoc, (trimStart_whitespace _ _ Hw).
  cbn [app trimStart]. now rewrite (trimStart_head _ _ _ E).
Qed.

Lemma rev_not_nil (s : jsstring) : s <> [] -> rev s <> [].
Proof.
  intros Hs Hr. apply Hs. rewrite <- (rev_involutive s), Hr. reflexivity.
Qed.

Lemma trimEnd_app_nonblank (a t : jsstring) :
  trimEnd t <> [] -> trimEnd (a ++ t) = a ++ trimEnd t.
Proof.
  intros Ht. unfold trimEnd in *. rewrite rev_app_distr.
  rewrite trimStart_app_nonblank.
  - now rewrite rev_app_distr, rev_involutive.
  - intros H. apply Ht. now rewrite H.
Qed.

Lemma trimEnd_idempotent (s : jsstring) : trimEnd (trimEnd s) = trimEnd s.
Proof.
  unfold trimEnd. now rewrite rev_involutive, trimStart_idempotent.
Qed.

(** Trimming the two ends in either order gives the same text. *)
Lemma trim_commutes (s : jsstring) : trimStart (trimEnd s) = trimEnd (trimStart s).
Proof.
  destruct (trimStart_prefix s) as [w [Hs Hw]].
  destruct (trimStart s) as [|c t] eqn:E.
  - rewrite app_nil_r in Hs. subst s. now rewrite (trimEnd_blank _ Hw).
  - pose proof (trimStart_head _ _ _ E) as Hc.
    rewrite Hs at 1. rewrite trimEnd_app_nonblank.
    + rewrite (trimStart_whitespace _ _ Hw), (trimEnd_cons _ _ Hc).
      cbn [trimStart]. now rewrite Hc.
    + rewrite (trimEnd_cons _ _ Hc). discriminate.
Qed.

Lemma trim_idempotent (s : jsstring) : trim (trim s) = trim s.
Proof.
  unfold trim. rewrite (trim_commutes (trimStart s)).
  now rewrite trimStart_idempotent, trimEnd_idempotent.
Qed.

Lemma trim_trimStart (s : jsstring) : trim (trimStart s) = trim s.
Proof.
  unfold trim. now rewrite trimStart_idempotent.
Qed.

(** A suffix of a text without trailing white space has none either. *)
Lemma trimEnd_suffix_fixed (a t : jsstring) :
  trimEnd (a ++ t) = a ++ t -> trimEnd t = t.
Proof.
  intros H. destruct (trimEnd_suffix t) as [w [Ht Hw]].
  destruct (trimEnd t) as [|c u] eqn:E.
  - cbn [app] in Ht. subst t.
    rewrite (trimEnd_whitespace _ _ Hw) in H.
    destruct (trimEnd_suffix a) as [w' [Ha _]].
    apply (f_equal (@List.length N)) in H, Ha.
    rewrite !length_app in *.
    destruct w; [reflexivity|exfalso; cbn [List.length] in H; lia].
  - rewrite trimEnd_app_nonblank in H by (rewrite E; discriminate).
    apply app_inv_head in H. congruence.
Qed.

(** ** The regular expressions and their groups *)

Lemma startsWith_app (p s : jsstring) : startsWith (p ++ s) p = true.
Proof.
  induction p as [|c p IH]; [now destruct s|].
  cbn [app startsWith]. now rewrite N.eqb_refl, IH.
Qed.

Lemma integral_pattern_prefix (expr body variable : jsstring) :
  integral_pattern expr body variable -> startsWith expr "∫" = true.
Proof.
  intros [w1 [w2 [l [-> _]]]]. apply startsWith_app.
Qed.

Lemma derivative_pattern_prefix (expr variable body : jsstring) :
  derivative_pattern expr variable body ->
  startsWith expr "d/d" = true /\ startsWith expr "∫" = false.
Proof.
  intros [l [w0 [w [-> _]]]].
  pose proof (startsWith_app "d/d" ([l] ++ (w0 :: w) ++ body)) as H.
  split; [exact H|]. now apply derivative_prefix_excludes_integral.
Qed.

(** X1. The integral pattern of line 148 matches a text exactly when the
    text is the integral sign, white space, a body without line terminator,
    white space, [d] and one letter; its first group is then that body
    trimmed and its second group the letter.  Whenever it matches, the first
    group has no white space at either end, so that the [trim()] of line 150
    changes nothing, it contains no line terminator, and the second group is
    one letter of [[a-zA-Z]]. *)
Theorem regex_integral_groups (expr group1 group2 : jsstring) :
  (regex_integral expr = Some (group1, group2) <->
   exists body, integral_pattern expr body group2 /\ group1 = trim body)
  /\
  (regex_integral expr = Some (group1, group2) ->
   trim group1 = group1 /\ no_line_terminator group1 = true
   /\ exists l, group2 = [l] /\ is_letter l = true).
Proof.
  split; [split|].
  - intros H. pose proof (regex_integral_sound _ _ _ H) as Hp.
    exists group1; split; [exact Hp|].
    rewrite (regex_integral_complete _ _ _ Hp) in H. now injection H.
  - intros [body [Hp ->]]. now apply regex_integral_complete.
  - intros H. pose proof (regex_integral_sound _ _ _ H) as Hp.
    pose proof Hp as [w1 [w2 [l [_ [_ [_ [Hn [Hl Hv]]]]]]]].
    rewrite (regex_integral_complete _ _ _ Hp) in H. injection H as H.
    repeat split; [exact H|exact Hn|exists l; now split].
Qed.

Lemma regex_integral_groups_witness :
  regex_integral "∫  x^2 dx" = Some ("x^2", "x")
  /\ trim "x^2" = "x^2".
Proof.
  split.
  - apply (proj2 (proj1 (regex_integral_groups "∫  x^2 dx" "x^2" "x"))).
    exists "x^2 "; split; [|vm_compute; reflexivity].
    exists "  ", "", 120%N. vm_compute. repeat split.
  - apply (proj2 (regex_integral_groups "∫  x^2 dx" "x^2" "x")).
    vm_compute; reflexivity.
Defined.

(** X2. The derivative pattern of line 183 matches a text exactly when the
    text is [d/d], one letter, at least one white space and a body without
    line terminator; its first group is then the letter and its second
    group that body without its leading white space.  On the trimmed input,
    as [solveInput] applies it, the second group has no white space at
    either end: the [trim()] of line 186 changes nothing. *)
Theorem regex_derivative_groups (input expr group1 group2 : jsstring) :
  (regex_derivative expr = Some (group1, group2) <->
   exists body, derivative_pattern expr group1 body /\ group2 = trimStart body)
  /\
  (regex_derivative (trim input) = Some (group1, group2) ->
   trim group2 = group2 /\ no_line_terminator group2 = true
   /\ exists l, group1 = [l] /\ is_letter l = true).
Proof.
  split; [split|].
  - intros H. pose proof (regex_derivative_sound _ _ _ H) as Hp.
    exists group2; split; [exact Hp|].
    rewrite (regex_derivative_complete _ _ _ Hp) in H. now injection H.
  - intros [body [Hp ->]]. now apply regex_derivative_complete.
  - intros H. pose proof (regex_derivative_sound _ _ _ H) as Hp.
    pose proof Hp as [l [w0 [w [He [Hl [_ [Hn Hv]]]]]]].
    rewrite (regex_derivative_complete _ _ _ Hp) in H. injection H as H.
    repeat split; [|exact Hn|exists l; now split].
    assert (Hfix : trimEnd (trim input) = trim input)
      by (unfold trim; apply trimEnd_idempotent).
    rewrite He in Hfix.
    replace ("d/d" ++ [l] ++ (w0 :: w) ++ group2)
      with (("d/d" ++ [l] ++ (w0 :: w)) ++ group2) in Hfix
      by now rewrite <- !app_assoc.
    apply trimEnd_suffix_fixed in Hfix.
    unfold trim. rewrite <- H, trimStart_idempotent, H. exact Hfix.
Qed.

Lemma regex_derivative_groups_witness :
  regex_derivative "d/dx   x^2" = Some ("x", "x^2")
  /\ trim "x^2" = "x^2".
Proof.
  split.
  - apply (proj2 (proj1 (regex_derivative_groups "" "d/dx   x^2" "x" "x^2"))).
    exists "  x^2"; split; [|vm_compute; reflexivity].
    exists 120%N, 32%N, []. vm_compute. repeat split.
  - apply (proj2 (regex_derivative_groups " d/dx   x^2 " "" "x" "x^2")).
    vm_compute; reflexivity.
Defined.

(** ** The dispatcher of src/app.js, route by route *)

(** X3. For every input whose trimmed text matches the integral pattern
    with body [body] and letter [variable], and with [math.parse] present,
    [solveInput] displays the rendering of [integrate(body.trim(), variable)],
    or [Error: ] followed by the message of whatever [math.parse],
    [integrate], [math.simplify] or [toString] threw. *)
Theorem solveInput_integral_dispatch
    (M : MathJS) (parse : jsstring -> outcome Node)
    (input body variable : jsstring) :
  integral_pattern (trim input) body variable ->
  math_parse M = Some parse ->
  solveInput (Some M) input
  = match (tree <- integrate parse (trim body) variable ;; render M tree) with
    | Ret text => Ret (SetResult text)
    | Throw message => Ret (SetResult ("Error: " ++ message))
    end.
Proof.
  intros Hp Hparse. unfold solveInput; cbv zeta.
  rewrite (integral_pattern_prefix _ _ _ Hp), (regex_integral_complete _ _ _ Hp).
  rewrite Hparse, trim_idempotent. unfold try_catch, bind.
  destruct (integrate parse (trim body) variable) as [tree|m]; [|reflexivity].
  destruct (render M tree); reflexivity.
Qed.

Lemma solveInput_integral_dispatch_witness :
  solveInput (Some math_without_simplify) "  ∫ x^2   dx "
  = Ret (SetResult "(x ^ 3) / 3").
Proof.
  pose proof (solveInput_integral_dispatch math_without_simplify sample_parse
                "  ∫ x^2   dx " "x^2" "x") as H.
  assert (Hp : integral_pattern (trim "  ∫ x^2   dx ") "x^2" "x").
  { exists " ", "   ", 120%N. vm_compute. repeat split. }
  specialize (H Hp eq_refl). vm_compute in H |- *. exact H.
Defined.

(** X4. For every input whose trimmed text matches the derivative pattern
    with letter [variable] and body [body], and with [math.derivative]
    present, [solveInput] displays the rendering of
    [math.derivative(body.trim(), variable)], or [Error: ] followed by the
    message of whatever was thrown; [math.parse] is not consulted. *)
Theorem solveInput_derivative_dispatch
    (M : MathJS) (derivative : jsstring -> jsstring -> outcome Node)
    (input variable body : jsstring) :
  derivative_pattern (trim input) variable body ->
  math_derivative M = Some derivative ->
  solveInput (Some M) input
  = match (tree <- derivative (trim body) variable ;; render M tree) with
    | Ret text => Ret (SetResult text)
    | Throw message => Ret (SetResult ("Error: " ++ message))
    end.
Proof.
  intros Hp Hd. unfold solveInput; cbv zeta.
  destruct (derivative_pattern_prefix _ _ _ Hp) as [Hs Hi].
  rewrite Hi, Hs, (regex_derivative_complete _ _ _ Hp), Hd, trim_trimStart.
  unfold try_catch, bind.
  destruct (derivative (trim body) variable) as [tree|m]; [|reflexivity].
  destruct (render M tree); reflexivity.
Qed.

Lemma solveInput_derivative_dispatch_witness :
  solveInput (Some math_with_simplify) "d/dx   x^2"
  = Ret (SetResult "2 * x")
  /\ solveInput (Some math_with_simplify) "d/dx   x^3"
     = Ret (SetResult "Error: Unexpected text").
Proof.
  split.
  - pose proof (solveInput_derivative_dispatch math_with_simplify sample_derivative
                  "d/dx   x^2" "x" "  x^2") as H.
    assert (Hp : derivative_pattern (trim "d/dx   x^2") "x" "  x^2").
    { exists 120%N, 32%N, []. vm_compute. repeat split. }
    specialize (H Hp eq_refl). vm_compute in H |- *. exact H.
  - pose proof (solveInput_derivative_dispatch math_with_simplify sample_derivative
                  "d/dx   x^3" "x" "  x^3") as H.
    assert (Hp : derivative_pattern (trim "d/dx   x^3") "x" "  x^3").
    { exists 120%N, 32%N, []. vm_compute. repeat split. }
    specialize (H Hp eq_refl). vm_compute in H |- *. exact H.
Defined.

(** X5. Whatever the input and whatever MathJS provides or throws, a call of
    [solveInput] of src/app.js ends in one call of [setResult]: it lets no
    exception out and never leaves the display as it was. *)
Theorem solveInput_total (math : option MathJS) (input : jsstring) :
  (exists text, solveInput math input = Ret (SetResult text))
  /\ solveInput math input <> Ret Unchanged
  /\ (forall message, solveInput math input <> Throw message).
Proof.
  destruct (solveInput_always_displays math input) as [text H].
  rewrite H. repeat split; [eauto|discriminate|discriminate].
Qed.

(** X7. An input that, once trimmed, starts neither with the integral sign
    nor with [d/d] is answered by the guidance text, in both source files
    and whatever MathJS provides; so is the empty input and every input of
    white space only. *)
Theorem solveInput_unrecognized_prefix
    (math : option MathJS) (math' : option Part000.MathJS) (input : jsstring) :
  (startsWith (trim input) "∫" = false ->
   startsWith (trim input) "d/d" = false ->
   solveInput math input
   = Ret (SetResult "Please start your input with ∫ (for integral) or d/dx (for derivative).")
   /\
   Part000.solveInput math' input
   = Ret (SetResult "Please start your input with ∫ (for integral) or d/dx (for derivative)."))
  /\
  (all_whitespace input = true ->
   solveInput math input
   = Ret (SetResult "Please start your input with ∫ (for integral) or d/dx (for derivative).")
   /\
   Part000.solveInput math' input
   = Ret (SetResult "Please start your input with ∫ (for integral) or d/dx (for derivative).")).
Proof.
  assert (Hgen : startsWith (trim input) "∫" = false ->
                 startsWith (trim input) "d/d" = false ->
                 solveInput math input
                 = Ret (SetResult "Please start your input with ∫ (for integral) or d/dx (for derivative).")
                 /\
                 Part000.solveInput math' input
                 = Ret (SetResult "Please start your input with ∫ (for integral) or d/dx (for derivative).")).
  { intros Hi Hd. unfold solveInput, Part000.solveInput; cbv zeta.
    rewrite Hi, Hd. split; reflexivity. }
  split; [exact Hgen|].
  intros Hw. apply Hgen; unfold trim; rewrite (trimStart_blank _ Hw); reflexivity.
Qed.

Lemma solveInput_unrecognized_prefix_witness :
  solveInput None "x^2"
  = Ret (SetResult "Please start your input with ∫ (for integral) or d/dx (for derivative).")
  /\ Part000.solveInput None "   "
     = Ret (SetResult "Please start your input with ∫ (for integral) or d/dx (for derivative).").
Proof.
  split.
  - apply (proj1 (solveInput_unrecognized_prefix None None "x^2"));
      vm_compute; reflexivity.
  - apply (proj2 (solveInput_unrecognized_prefix None None "   "));
      vm_compute; reflexivity.
Defined.

(** X8. A well-formed request is answered by a message that names what is
    missing: [MathJS is not loaded] when [math] is undefined, for both kinds
    of request; the parse message when [math.parse] is not a function, for
    an integral, whether or not [math.derivative] exists; the derivative
    message when [math.derivative] is not a function, for a derivative,
    whether or not [math.parse] exists. *)
Theorem solveInput_missing_capability
    (M : MathJS) (input body variable : jsstring) :
  (integral_pattern (trim input) body variable
   \/ derivative_pattern (trim input) variable body ->
   solveInput None input
   = Ret (SetResult "Error: MathJS is not loaded. Please check your internet connection."))
  /\
  (integral_pattern (trim input) body variable ->
   math_parse M = None ->
   solveInput (Some M) input
   = Ret (SetResult "Error: MathJS parse function is not available. The browser build may be incomplete."))
  /\
  (derivative_pattern (trim input) variable body ->
   math_derivative M = None ->
   solveInput (Some M) input
   = Ret (SetResult "Error: MathJS derivative function is not available.")).
Proof.
  split; [|split].
  - intros [Hp|Hp]; unfold solveInput; cbv zeta.
    + now rewrite (integral_pattern_prefix _ _ _ Hp), (regex_integral_complete _ _ _ Hp).
    + destruct (derivative_pattern_prefix _ _ _ Hp) as [Hs Hi].
      now rewrite Hi, Hs, (regex_derivative_complete _ _ _ Hp).
  - intros Hp Hn. unfold solveInput; cbv zeta.
    now rewrite (integral_pattern_prefix _ _ _ Hp),
      (regex_integral_complete _ _ _ Hp), Hn.
  - intros Hp Hn. unfold solveInput; cbv zeta.
    destruct (derivative_pattern_prefix _ _ _ Hp) as [Hs Hi].
    now rewrite Hi, Hs, (regex_derivative_complete _ _ _ Hp), Hn.
Qed.

Lemma solveInput_missing_capability_witness :
  solveInput None "∫ x dx"
  = Ret (SetResult "Error: MathJS is not loaded. Please check your internet connection.")
  /\
  solveInput (Some {| math_parse := None; math_derivative := Some sample_derivative;
                      math_simplify := None;
                      node_toString := fun t => Ret (sample_toString t) |}) "∫ x dx"
  = Ret (SetResult "Error: MathJS parse function is not available. The browser build may be incomplete.").
Proof.
  assert (Hp : integral_pattern (trim "∫ x dx") "x" "x").
  { exists " ", " ", 120%N. vm_compute. repeat split. }
  split.
  - apply (proj1 (solveInput_missing_capability math_without_simplify
                    "∫ x dx" "x" "x")).
    left; exact Hp.
  - apply (proj1 (proj2 (solveInput_missing_capability
                           {| math_parse := None;
                              math_derivative := Some sample_derivative;
                              math_simplify := None;
                              node_toString := fun t => Ret (sample_toString t) |}
                           "∫ x dx" "x" "x")) Hp).
    reflexivity.
Defined.

(** X9. White space before and after the input changes nothing: both
    [solveInput] read the input through [trim] only. *)
Theorem solveInput_ignores_surrounding_whitespace
    (math : option MathJS) (math' : option Part000.MathJS)
    (before input after : jsstring) :
  all_whitespace before = true -> all_whitespace after = true ->
  solveInput math (before ++ input ++ after) = solveInput math input
  /\ Part000.solveInput math' (before ++ input ++ after)
     = Part000.solveInput math' input.
Proof.
  intros Hb Ha. unfold solveInput, Part000.solveInput; cbv zeta.
  rewrite (trim_whitespace_around _ _ _ Hb Ha). split; reflexivity.
Qed.

Lemma solveInput_ignores_surrounding_whitespace_witness :
  solveInput (Some math_without_simplify) ("  " ++ "∫ x^2 dx" ++ " ")
  = solveInput (Some math_without_simplify) "∫ x^2 dx".
Proof.
  apply (proj1 (solveInput_ignores_surrounding_whitespace
                  (Some math_without_simplify) None "  " "∫ x^2 dx" " "
                  eq_refl eq_refl)).
Defined.

Lemma solveInput_invalid_format_witness :
  solveInput None "∫ x^2 + 1"
  = Ret (SetResult "Invalid integral format. Use: ∫ expression dx (e.g., ∫ x^2 dx)")
  /\ solveInput None "d/dxx^2"
     = Ret (SetResult "Invalid derivative format. Use: d/dx expression (e.g., d/dx x^2)").
Proof.
  split.
  - apply (proj1 (solveInput_invalid_format None "∫ x^2 + 1")).
    + reflexivity.
    + apply regex_integral_rejects. vm_compute; reflexivity.
  - apply (proj2 (solveInput_invalid_format None "d/dxx^2")).
    + reflexivity.
    + apply regex_derivative_rejects. vm_compute; reflexivity.
Defined.

(** ** The dispatcher of src/unnamed/part_000, route by route *)

Lemma derivative_body_trimmed (input variable body : jsstring) :
  derivative_pattern (trim input) variable body -> trimStart body = trim body.
Proof.
  intros [l [w0 [w [He _]]]].
  assert (Hfix : trimEnd (trim input) = trim input)
    by (unfold trim; apply trimEnd_idempotent).
  rewrite He in Hfix.
  replace ("d/d" ++ [l] ++ (w0 :: w) ++ body)
    with (("d/d" ++ [l] ++ (w0 :: w)) ++ body) in Hfix
    by now rewrite <- !app_assoc.
  apply trimEnd_suffix_fixed in Hfix.
  unfold trim. now rewrite <- trim_commutes, Hfix.
Qed.

(** X11. The [solveInput] of src/unnamed/part_000 leaves the display as it
    was exactly when the trimmed input has the integral prefix, or the
    derivative prefix, and the pattern of that kind rejects it; on every
    other input it calls [setResult]. *)
Theorem part000_solveInput_unchanged_iff
    (math : option Part000.MathJS) (input : jsstring) :
  Part000.solveInput math input = Ret Unchanged
  <->
  (startsWith (trim input) "∫" = true
   /\ ~ (exists body variable, integral_pattern (trim input) body variable))
  \/
  (startsWith (trim input) "d/d" = true
   /\ ~ (exists variable body, derivative_pattern (trim input) variable body)).
Proof.
  split.
  - unfold Part000.solveInput, try_catch, bind; cbv zeta.
    destruct (startsWith (trim input) "∫") eqn:Hi.
    + destruct (regex_integral (trim input)) as [[g1 g2]|] eqn:Hr.
      * split_dispatch; discriminate.
      * intros _. left. split; [reflexivity|]. now apply regex_integral_rejects.
    + destruct (startsWith (trim input) "d/d") eqn:Hd; [|discriminate].
      destruct (regex_derivative (trim input)) as [[g1 g2]|] eqn:Hr.
      * split_dispatch; discriminate.
      * intros _. right. split; [reflexivity|]. now apply regex_derivative_rejects.
  - destruct (part000_solveInput_silent math input) as [Hint Hder].
    intros [[Hs Hr]|[Hs Hr]]; auto.
Qed.

(** X12. In src/unnamed/part_000 a well-formed integral request never
    reaches a rule engine: when [math] or [math.integral] is missing, as in
    MathJS without an extension, it is answered by the text that asks for
    the extension, whatever its body; when [math.integral] is present, the
    display is the rendering of [math.integral(body, variable)], without
    simplification, or [Error: ] and the message thrown. *)
Theorem part000_integral_dispatch
    (math : option Part000.MathJS) (input body variable : jsstring) :
  integral_pattern (trim input) body variable ->
  (math = None \/ (exists M, math = Some M /\ Part000.math_integral M = None) ->
   Part000.solveInput math input
   = Ret (SetResult ("Integral solving requires MathJS with " ++ [34%N]
                       ++ "integral" ++ [34%N] ++ " extension.")))
  /\
  (forall M integral,
     math = Some M -> Part000.math_integral M = Some integral ->
     Part000.solveInput math input
     = match (tree <- integral (trim body) variable ;;
              Part000.node_toString M tree) with
       | Ret text => Ret (SetResult text)
       | Throw message => Ret (SetResult ("Error: " ++ message))
       end).
Proof.
  intros Hp. split.
  - intros [->|[M [-> Hn]]]; unfold Part000.solveInput; cbv zeta;
      rewrite (integral_pattern_prefix _ _ _ Hp), (regex_integral_complete _ _ _ Hp);
      [reflexivity|now rewrite Hn].
  - intros M integral -> Hi. unfold Part000.solveInput; cbv zeta.
    rewrite (integral_pattern_prefix _ _ _ Hp), (regex_integral_complete _ _ _ Hp), Hi.
    unfold try_catch, bind.
    destruct (integral (trim body) variable) as [tree|m]; [|reflexivity].
    destruct (Part000.node_toString M tree); reflexivity.
Qed.

Lemma part000_integral_dispatch_witness :
  Part000.solveInput None "∫ x^2 dx"
  = Ret (SetResult ("Integral solving requires MathJS with " ++ [34%N]
                      ++ "integral" ++ [34%N] ++ " extension.")).
Proof.
  assert (Hp : integral_pattern (trim "∫ x^2 dx") "x^2" "x").
  { exists " ", " ", 120%N. vm_compute. repeat split. }
  apply (proj1 (part000_integral_dispatch None "∫ x^2 dx" "x^2" "x" Hp)).
  left; reflexivity.
Defined.

(** X13. On a well-formed derivative request the two source files display
    the same text, when [math.simplify] is absent and both use the same
    differentiator and the same rendering: the rendering of the derivative,
    or [Error: ] and the message thrown.  The [trim()] that only src/app.js
    applies to the body makes no difference. *)
Theorem dispatchers_agree_on_derivatives
    (M : MathJS) (M' : Part000.MathJS)
    (derivative : jsstring -> jsstring -> outcome Node)
    (input variable body : jsstring) :
  derivative_pattern (trim input) variable body ->
  math_derivative M = Some derivative ->
  math_simplify M = None ->
  Part000.math_derivative M'
  = Some (fun b v => tree <- derivative b v ;; Ret (Some tree)) ->
  (forall tree, Part000.node_toString M' tree = node_toString M tree) ->
  Part000.solveInput (Some M') input = solveInput (Some M) input.
Proof.
  intros Hp Hd Hs Hd' Hts.
  destruct (derivative_pattern_prefix _ _ _ Hp) as [Hpre Hi].
  unfold solveInput, Part000.solveInput, render; cbv zeta.
  rewrite Hi, Hpre, (regex_derivative_complete _ _ _ Hp), Hd, Hd', Hs.
  rewrite trim_trimStart, (derivative_body_trimmed _ _ _ Hp).
  unfold try_catch, bind.
  destruct (derivative (trim body) variable) as [tree|m]; [|reflexivity].
  rewrite Hts. destruct (node_toString M tree); reflexivity.
Qed.

Lemma dispatchers_agree_on_derivatives_witness :
  Part000.solveInput (Some math_of_part000) "d/dx x^2"
  = solveInput (Some math_without_simplify) "d/dx x^2".
Proof.
  assert (Hp : derivative_pattern (trim "d/dx x^2") "x" "x^2").
  { exists 120%N, 32%N, []. vm_compute. repeat split. }
  apply (dispatchers_agree_on_derivatives math_without_simplify math_of_part000
           sample_derivative "d/dx x^2" "x" "x^2" Hp eq_refl eq_refl eq_refl).
  intros tree; reflexivity.
Defined.

(** ** The rule engine on the bodies it does not integrate *)

Ltac no_rule :=
  unfold matching_rules, recognizers; cbn [filter];
  cbv beta iota delta
    [recognizes_power recognizes_constant_power recognizes_symbol
     recognizes_constant_symbol Pow Mul Sym Num];
  split_shape; cbn [andb List.length]; try reflexivity.

Section RuleEngineLimits.

Variable parse : jsstring -> outcome Node.

Lemma integrate_no_match (expression variable : jsstring) (body : Node) :
  parse expression = Ret body ->
  matching_rules body variable = 0%nat ->
  integrate parse expression variable = Throw (unsupported_message expression).
Proof.
  intros H H0.
  pose proof (integrate_power_recognizer parse body variable) as H1.
  pose proof (integrate_constant_power_recognizer parse body variable) as H2.
  pose proof (integrate_symbol_recognizer parse body variable) as H3.
  pose proof (integrate_constant_symbol_recognizer parse body variable) as H4.
  unfold matching_rules, recognizers in H0; cbn [filter] in H0.
  destruct (recognizes_power body variable); [discriminate|].
  destruct (recognizes_constant_power body variable); [discriminate|].
  destruct (recognizes_symbol body variable); [discriminate|].
  destruct (recognizes_constant_symbol body variable); [discriminate|].
  unfold integrate; rewrite H; cbn [bind].
  destruct (integrate_power parse body variable); [discriminate|].
  destruct (integrate_constant_power parse body variable); [discriminate|].
  destruct (integrate_symbol parse body variable); [discriminate|].
  destruct (integrate_constant_symbol parse body variable); [discriminate|].
  reflexivity.
Qed.

Lemma jsstring_eqb_neq (a b : jsstring) : a <> b -> jsstring_eqb a b = false.
Proof.
  intros H. destruct (jsstring_eqb a b) eqn:E; [|reflexivity].
  apply jsstring_eqb_eq in E. contradiction.
Qed.

(** X14. The rules apply to the integration variable only: a power, a
    constant times a power, a bare symbol or a constant times a symbol (in
    either order) whose symbol is another name than [variable] is answered
    by the unsupported-expression error, as in [∫ x^2 dy]. *)
Theorem integrate_other_variable
    (expression variable s : jsstring) (n c : Value) (body : Node) :
  s <> variable ->
  parse expression = Ret body ->
  body = Pow (Sym s) (ConstantNode n)
  \/ body = Mul (ConstantNode c) (Pow (Sym s) (ConstantNode n))
  \/ body = Sym s
  \/ body = Mul (ConstantNode c) (Sym s)
  \/ body = Mul (Sym s) (ConstantNode c) ->
  integrate parse expression variable
  = Throw ("Integration not yet supported for: " ++ expression
              ++ ". Try: x, x^2, x^3, 2*x, etc.").
Proof.
  intros Hs H Hshape. apply (integrate_no_match _ _ body H).
  apply jsstring_eqb_neq in Hs.
  destruct Hshape as [->|[->|[->|[->| ->]]]];
    unfold matching_rules, recognizers; cbn [filter];
    cbv beta iota delta
      [recognizes_power recognizes_constant_power recognizes_symbol
       recognizes_constant_symbol Pow Mul Sym];
    rewrite ?Hs, ?andb_false_r; cbn [andb]; reflexivity.
Qed.

(** X15. Only the first rule tests that the exponent is a number.  With an
    exponent constant that is not a number (a string, a boolean, [null],
    [undefined]) the power [v^e] is unsupported, whereas [c*v^e] is
    integrated with [e + 1] as JavaScript computes it: the string with [1]
    appended, 2 for [true], 1 for [false] and [null], [NaN] for
    [undefined]. *)
Theorem integrate_exponent_coercion
    (expression v : jsstring) (c e : Value) :
  typeof_number e = false ->
  (parse expression = Ret (Pow (Sym v) (ConstantNode e)) ->
   integrate parse expression v
   = Throw ("Integration not yet supported for: " ++ expression
               ++ ". Try: x, x^2, x^3, 2*x, etc."))
  /\
  (parse expression = Ret (Mul (ConstantNode c) (Pow (Sym v) (ConstantNode e))) ->
   integrate parse expression v
   = parse ("(" ++ toText c ++ " * " ++ v ++ "^" ++ toText (plus_one e)
               ++ ")/" ++ toText (plus_one e)))
  /\
  (toText (plus_one e)
   = match e with
     | VStr text => text ++ "1"
     | VBool true => "2"
     | VBool false => "1"
     | VNull => "1"
     | _ => "NaN"
     end).
Proof.
  intros He. split; [|split].
  - intros H. destruct e as [n|text|[|]| |]; try discriminate;
      run_integrate H; reflexivity.
  - intros H. run_integrate H.
    destruct e as [n|text|[|]| |]; try discriminate; reflexivity.
  - destruct e as [n|text|[|]| |]; try discriminate; reflexivity.
Qed.

(** X16. Bodies the rule engine does not integrate, each answered by the
    unsupported-expression error: a constant alone, a parenthesized
    expression whatever it contains, an operator other than [^] and [*], an
    operator with a single operand such as a unary minus, and a power, with
    or without a constant in front, whose exponent is not a constant node
    (as when the exponent is a unary minus applied to 1). *)
Theorem integrate_unsupported_shapes (expression variable : jsstring) :
  (forall value, parse expression = Ret (ConstantNode value) ->
     integrate parse expression variable = Throw (unsupported_message expression))
  /\
  (forall content, parse expression = Ret (ParenthesisNode content) ->
     integrate parse expression variable = Throw (unsupported_message expression))
  /\
  (forall op args, op <> "^" -> op <> "*" ->
     parse expression = Ret (OperatorNode op args) ->
     integrate parse expression variable = Throw (unsupported_message expression))
  /\
  (forall op a, parse expression = Ret (OperatorNode op [a]) ->
     integrate parse expression variable = Throw (unsupported_message expression))
  /\
  (forall base exponent, (forall value, exponent <> ConstantNode value) ->
     parse expression = Ret (Pow base exponent) ->
     integrate parse expression variable = Throw (unsupported_message expression))
  /\
  (forall c base exponent, (forall value, exponent <> ConstantNode value) ->
     parse expression = Ret (Mul c (Pow base exponent)) ->
     integrate parse expression variable = Throw (unsupported_message expression))
  /\
  unsupported_message expression
  = "Integration not yet supported for: " ++ expression
      ++ ". Try: x, x^2, x^3, 2*x, etc.".
Proof.
  repeat match goal with |- _ /\ _ => split end.
  - intros value H. apply (integrate_no_match _ _ _ H). reflexivity.
  - intros content H. apply (integrate_no_match _ _ _ H). reflexivity.
  - intros op args H1 H2 H. apply (integrate_no_match _ _ _ H).
    apply jsstring_eqb_neq in H1, H2.
    unfold matching_rules, recognizers; cbn [filter];
      cbv beta iota delta
        [recognizes_power recognizes_constant_power recognizes_symbol
         recognizes_constant_symbol].
    split_shape; rewrite ?H1, ?H2; cbn [andb List.length]; reflexivity.
  - intros op a H. apply (integrate_no_match _ _ _ H). no_rule.
  - intros base exponent He H. apply (integrate_no_match _ _ _ H).
    destruct exponent as [value| | | |]; [now contradiction (He value)|..];
      no_rule.
  - intros c base exponent He H. apply (integrate_no_match _ _ _ H).
    destruct exponent as [value| | | |]; [now contradiction (He value)|..];
      no_rule.
  - reflexivity.
Qed.

Lemma block_returns_a_parse (rule : Rule) (body : Node) (variable : jsstring)
    (r : outcome Node) :
  In rule (rule_table parse) -> rule body variable = Some r ->
  exists text, r = parse text.
Proof.
  unfold rule_table; cbn [In].
  intros [<-|[<-|[<-|[<-|[]]]]];
    cbv beta iota zeta delta
      [integrate_power integrate_constant_power integrate_symbol
       integrate_constant_symbol arg nth_error];
    split_shape; split_tests;
    intros H; try discriminate; injection H as <-; eexists; reflexivity.
Qed.

(** X17. [integrate] builds no tree and raises a single error of its own.
    A failure of [math.parse] on the expression passes through unchanged;
    every tree returned is what [math.parse] made of a generated text; every
    exception is the one of [math.parse] on the expression, the
    unsupported-expression error, or the one of [math.parse] on a generated
    text. *)
Theorem integrate_outcomes (expression variable : jsstring) :
  (forall message, parse expression = Throw message ->
     integrate parse expression variable = Throw message)
  /\
  (forall tree, integrate parse expression variable = Ret tree ->
     exists text, parse text = Ret tree)
  /\
  (forall message, integrate parse expression variable = Throw message ->
     parse expression = Throw message
     \/ message = unsupported_message expression
     \/ exists text, parse text = Throw message).
Proof.
  assert (Hblocks : forall parsed, parse expression = Ret parsed ->
            integrate parse expression variable
            = Throw (unsupported_message expression)
            \/ exists text, integrate parse expression variable = parse text).
  { intros parsed Hp. unfold integrate. rewrite Hp; cbn [bind].
    pose proof (block_returns_a_parse (integrate_power parse) parsed variable) as B1.
    pose proof (block_returns_a_parse (integrate_constant_power parse) parsed variable) as B2.
    pose proof (block_returns_a_parse (integrate_symbol parse) parsed variable) as B3.
    pose proof (block_returns_a_parse (integrate_constant_symbol parse) parsed variable) as B4.
    unfold rule_table in B1, B2, B3, B4; cbn [In] in B1, B2, B3, B4.
    destruct (integrate_power parse parsed variable) as [r|].
    { right. apply (B1 r); auto. }
    destruct (integrate_constant_power parse parsed variable) as [r|].
    { right. apply (B2 r); auto. }
    destruct (integrate_symbol parse parsed variable) as [r|].
    { right. apply (B3 r); auto. }
    destruct (integrate_constant_symbol parse parsed variable) as [r|].
    { right. apply (B4 r); auto 6. }
    now left. }
  split; [|split].
  - intros message H. unfold integrate. now rewrite H.
  - intros tree H. destruct (parse expression) as [parsed|m] eqn:Hp.
    + destruct (Hblocks parsed eq_refl) as [Hu|[text Ht]].
      * rewrite Hu in H. discriminate.
      * exists text. now rewrite <- Ht.
    + unfold integrate in H. rewrite Hp in H. discriminate.
  - intros message H. destruct (parse expression) as [parsed|m] eqn:Hp.
    + right. destruct (Hblocks parsed eq_refl) as [Hu|[text Ht]].
      * left. rewrite Hu in H. now injection H.
      * right. exists text. now rewrite <- Ht.
    + left. unfold integrate in H. rewrite Hp in H. exact H.
Qed.

End RuleEngineLimits.

Lemma integrate_other_variable_witness :
  integrate sample_parse "x^2" "y"
  = Throw "Integration not yet supported for: x^2. Try: x, x^2, x^3, 2*x, etc.".
Proof.
  pose proof (integrate_other_variable sample_parse "x^2" "y" "x" (VNum (number_of_Z 2)) (VNum (number_of_Z 0))
                (Pow (Sym "x") (Num 2))) as H.
  assert (Hne : ("x" : jsstring) <> "y") by discriminate.
  specialize (H Hne eq_refl (or_introl eq_refl)). exact H.
Defined.

Lemma integrate_exponent_coercion_witness :
  integrate (table_parse [("2*x^null", Mul (Num 2)
                                         (Pow (Sym "x") (ConstantNode VNull)))])
    "2*x^null" "x"
  = table_parse [("2*x^null", Mul (Num 2) (Pow (Sym "x") (ConstantNode VNull)))]
      "(2 * x^1)/1".
Proof.
  pose proof (proj1 (proj2 (integrate_exponent_coercion
                (table_parse [("2*x^null",
                               Mul (Num 2) (Pow (Sym "x") (ConstantNode VNull)))])
                "2*x^null" "x" (VNum (number_of_Z 2)) VNull eq_refl)) eq_refl) as H.
  exact H.
Defined.

Lemma integrate_unsupported_shapes_witness :
  integrate (table_parse [("(x^2)", ParenthesisNode (Pow (Sym "x") (Num 2)))])
    "(x^2)" "x"
  = Throw "Integration not yet supported for: (x^2). Try: x, x^2, x^3, 2*x, etc.".
Proof.
  pose proof (proj1 (proj2 (integrate_unsupported_shapes
                (table_parse [("(x^2)", ParenthesisNode (Pow (Sym "x") (Num 2)))])
                "(x^2)" "x")) (Pow (Sym "x") (Num 2)) eq_refl) as H.
  exact H.
Defined.

Lemma integrate_outcomes_witness :
  integrate sample_parse "x^" "x" = Throw "Unexpected text"
  /\ exists text,
       sample_parse text
       = Ret (Div (ParenthesisNode (Pow (Sym "x") (Num 3))) (Num 3)).
Proof.
  split.
  - apply (proj1 (integrate_outcomes sample_parse "x^" "x")). reflexivity.
  - apply (proj1 (proj2 (integrate_outcomes sample_parse "x^2" "x"))).
    reflexivity.
Defined.

(** ** The on-screen keyboard *)

Lemma firstn_exact (A : Type) (l r : list A) : firstn (List.length l) (l ++ r) = l.
Proof.
  rewrite firstn_app, Nat.sub_diag, firstn_all. cbn [firstn]. apply app_nil_r.
Qed.

Lemma skipn_exact (A : Type) (l r : list A) : skipn (List.length l) (l ++ r) = r.
Proof.
  rewrite skipn_app, Nat.sub_diag, skipn_all. reflexivity.
Qed.

(** X18. [insertSymbol] replaces the selection by the symbol and touches
    nothing else: with the selection inside the text, the text before the
    selection and the text after it are kept, the symbol stands between
    them, the length changes by the length of the symbol minus that of the
    selection, and the cursor is set just after the symbol.  With an empty
    selection, taking the symbol out again gives the text back.  Without a
    mounted field nothing happens. *)
Theorem insertSymbol_splices (el : Selection) (input symbol : jsstring) :
  (selectionStart el <= selectionEnd el <= List.length input)%nat ->
  exists r,
    insertSymbol (Some el) input symbol = Some r
    /\ firstn (selectionStart el) (newInput r) = firstn (selectionStart el) input
    /\ firstn (List.length symbol) (skipn (selectionStart el) (newInput r)) = symbol
    /\ skipn (cursor r) (newInput r) = skipn (selectionEnd el) input
    /\ List.length (newInput r)
       = (List.length input - (selectionEnd el - selectionStart el)
          + List.length symbol)%nat
    /\ cursor r = (selectionStart el + List.length symbol)%nat
    /\ (selectionStart el = selectionEnd el ->
        firstn (selectionStart el) (newInput r) ++ skipn (cursor r) (newInput r)
        = input)
    /\ insertSymbol None input symbol = None.
Proof.
  intros [Hse Hel]. eexists; split; [reflexivity|]. cbn [newInput cursor].
  set (start := selectionStart el) in *. set (stop := selectionEnd el) in *.
  assert (Hlen : List.length (firstn start input) = start)
    by (rewrite length_firstn; lia).
  assert (Hfirst : firstn start (firstn start input ++ symbol ++ skipn stop input)
                   = firstn start input).
  { rewrite <- Hlen at 1. apply firstn_exact. }
  assert (Hskip : skipn (start + List.length symbol)
                    (firstn start input ++ symbol ++ skipn stop input)
                  = skipn stop input).
  { rewrite app_assoc.
    replace (start + List.length symbol)%nat
      with (List.length (firstn start input ++ symbol))
      by (rewrite length_app; lia).
    apply skipn_exact. }
  repeat match goal with |- _ /\ _ => split end.
  - exact Hfirst.
  - rewrite <- Hlen at 1. rewrite skipn_exact. apply firstn_exact.
  - exact Hskip.
  - rewrite !length_app, Hlen, length_skipn. lia.
  - reflexivity.
  - intros Heq. rewrite Hfirst, Hskip, <- Heq. apply firstn_skipn.
  - reflexivity.
Qed.

Lemma insertSymbol_splices_witness :
  exists r,
    insertSymbol (Some {| selectionStart := 2; selectionEnd := 5 |}) "∫ x^2 dx" "sin"
    = Some r
    /\ newInput r = "∫ sin dx" /\ cursor r = 5%nat.
Proof.
  destruct (insertSymbol_splices {| selectionStart := 2; selectionEnd := 5 |}
              "∫ x^2 dx" "sin") as [r [Hr [_ [_ [_ [_ [Hc _]]]]]]].
  - cbn. lia.
  - exists r. split; [exact Hr|]. split; [|exact Hc].
    cbn in Hr. injection Hr as <-. reflexivity.
Defined.

(** X19. Two keys pressed one after the other insert the two symbols side
    by side: inserting [second] at the cursor position left by the
    insertion of [first] gives the same text and the same cursor as
    inserting [first ++ second] at once. *)
Theorem insertSymbol_twice (el : Selection) (input first second : jsstring) :
  (selectionStart el <= List.length input)%nat ->
  match insertSymbol (Some el) input first with
  | Some r => insertSymbol (Some (collapsed (cursor r))) (newInput r) second
  | None => None
  end
  = insertSymbol (Some el) input (first ++ second).
Proof.
  intros Hs. cbn [insertSymbol newInput cursor collapsed selectionStart selectionEnd].
  set (start := selectionStart el) in *.
  assert (Hlen : List.length (firstn start input ++ first)
                 = (start + List.length first)%nat)
    by (rewrite length_app, length_firstn; lia).
  f_equal. f_equal.
  - rewrite (app_assoc (firstn start input) first), <- Hlen.
    rewrite firstn_exact, skipn_exact. now rewrite <- !app_assoc.
  - rewrite length_app. lia.
Qed.

Lemma insertSymbol_twice_witness :
  match insertSymbol (Some (collapsed 0)) "" "∫" with
  | Some r => insertSymbol (Some (collapsed (cursor r))) (newInput r) "dx"
  | None => None
  end
  = Some {| newInput := "∫dx"; cursor := 3 |}.
Proof.
  pose proof (insertSymbol_twice (collapsed 0) "" "∫" "dx") as H.
  cbn in H |- *. apply H. lia.
Defined.

Lemma visibility_stays_shown (events : list event) :
  forallb (fun ev => negb (hides ev)) events = true ->
  visibility true events = true.
Proof.
  unfold visibility. induction events as [|ev events IH]; [reflexivity|].
  cbn [forallb fold_left]. intros H; apply andb_true_iff in H; destruct H as [Hev H].
  replace (handle true ev) with true; [now apply IH|].
  destruct ev as [|e]; [reflexivity|]. cbn [handle hides] in *.
  unfold handleClick. destruct (input_mounted e); [|reflexivity].
  cbn [negb andb] in *. destruct (negb (target_in_input e) && _); [discriminate|reflexivity].
Qed.

Lemma visibility_stays_hidden (events : list event) :
  forallb (fun ev => negb (is_focus ev)) events = true ->
  visibility false events = false.
Proof.
  unfold visibility. induction events as [|ev events IH]; [reflexivity|].
  cbn [forallb fold_left]. intros H; apply andb_true_iff in H; destruct H as [Hev H].
  replace (handle false ev) with false; [now apply IH|].
  destruct ev as [|e]; [discriminate|]. cbn [handle]. unfold handleClick.
  destruct (negb (input_mounted e)); [reflexivity|].
  destruct (negb (target_in_input e) && _); reflexivity.
Qed.

(** X20. The keyboard is shown from a focus of the field until a click
    outside both the field and the keyboard.  After any sequence of events
    it is shown if the last focus is followed by no such click, and hidden
    if the last such click is followed by no focus; a click on a key of the
    keyboard, a click in the field, and any click while the field is not
    mounted leave it as it is. *)
Theorem keyboard_visibility
    (showKeyboard : bool) (before after : list event) (ev : event) :
  (forallb (fun ev => negb (hides ev)) after = true ->
   visibility showKeyboard (before ++ Focus :: after) = true)
  /\
  (hides ev = true ->
   forallb (fun ev => negb (is_focus ev)) after = true ->
   visibility showKeyboard (before ++ ev :: after) = false)
  /\
  (forall e,
     target_in_keyboard e = Some true \/ target_in_input e = true
     \/ input_mounted e = false ->
     handleClick e showKeyboard = showKeyboard).
Proof.
  split; [|split].
  - intros H. unfold visibility. rewrite fold_left_app. cbn [fold_left handle handleFocus].
    now apply visibility_stays_shown.
  - intros Hev H. unfold visibility. rewrite fold_left_app. cbn [fold_left].
    replace (handle (fold_left handle before showKeyboard) ev) with false;
      [now apply visibility_stays_hidden|].
    destruct ev as [|e]; [discriminate|]. cbn [handle hides] in *. unfold handleClick.
    apply andb_true_iff in Hev; destruct Hev as [Hev Hk].
    apply andb_true_iff in Hev; destruct Hev as [-> Hi].
    cbn [negb]. now rewrite Hi, Hk.
  - intros e [Hk|[Hi|Hm]]; unfold handleClick.
    + rewrite Hk. cbn [negb]. rewrite andb_false_r. now destruct (negb (input_mounted e)).
    + rewrite Hi. cbn [negb andb]. now destruct (negb (input_mounted e)).
    + now rewrite Hm.
Qed.

Lemma keyboard_visibility_witness :
  visibility false
    [Focus;
     Click {| input_mounted := true; target_in_input := false;
              target_in_keyboard := Some true |}]
  = true
  /\ visibility true
       [Click {| input_mounted := true; target_in_input := false;
                 target_in_keyboard := Some false |}]
     = false.
Proof.
  split.
  - apply (proj1 (keyboard_visibility false []
                    [Click {| input_mounted := true; target_in_input := false;
                              target_in_keyboard := Some true |}] Focus)).
    reflexivity.
  - apply (proj1 (proj2 (keyboard_visibility true [] []
                           (Click {| input_mounted := true; target_in_input := false;
                                     target_in_keyboard := Some false |}))));
      reflexivity.
Defined.

(** ** From the keys to the dispatcher *)

Lemma trimEnd_nonblank (s : jsstring) : trim s <> [] -> trimEnd s <> [].
Proof.
  intros H E. apply H. unfold trim. now rewrite <- trim_commutes, E.
Qed.

(** X21. The values of the keys fit the patterns of the dispatcher.  The
    key [∫], a body and the key [dx] make an input that the integral
    pattern accepts with that body, trimmed, and the variable [x], provided
    the trimmed body has no line terminator.  The key [d/dx] inserts [d/dx]
    and a space, so that a body typed after it is accepted by the
    derivative pattern with the variable [x]; but the key alone, or followed
    by white space only, loses its space to [trim] and is rejected. *)
Theorem keys_make_requests (body : jsstring) :
  (key_value "∫" = Some "∫" /\ key_value "dx" = Some "dx"
   /\ key_value "d/dx" = Some "d/dx ")
  /\
  (no_line_terminator (trim body) = true ->
   regex_integral (trim ("∫" ++ body ++ "dx")) = Some (trim body, "x"))
  /\
  (no_line_terminator (trim body) = true -> trim body <> [] ->
   regex_derivative (trim ("d/dx " ++ body)) = Some ("x", trim body))
  /\
  (all_whitespace body = true ->
   regex_derivative (trim ("d/dx " ++ body)) = None).
Proof.
  split; [repeat split|split; [|split]].
  - intros Hn.
    assert (Ht : trim ("∫" ++ body ++ "dx") = "∫" ++ body ++ "dx").
    { unfold trim. change (trimStart ("∫" ++ body ++ "dx")) with ("∫" ++ body ++ "dx").
      rewrite (app_assoc "∫" body "dx"), trimEnd_app_nonblank; [reflexivity|].
      discriminate. }
    rewrite Ht. destruct (trim_decomposition body) as [w1 [w2 [Hb [H1 H2]]]].
    rewrite <- (trim_idempotent body).
    apply regex_integral_complete.
    exists w1, w2, 120%N. repeat split; try assumption.
    rewrite Hb at 1. now rewrite <- !app_assoc.
  - intros Hn Hb.
    assert (Ht : trim ("d/dx " ++ body) = "d/dx " ++ trimEnd body).
    { unfold trim. change (trimStart ("d/dx " ++ body)) with ("d/dx " ++ body).
      apply trimEnd_app_nonblank. now apply trimEnd_nonblank. }
    rewrite Ht. unfold regex_derivative. cbn [app].
    change (is_letter 120) with true. change (is_whitespace 32) with true.
    cbn [N.eqb Pos.eqb andb]. rewrite trim_commutes.
    change (trimEnd (trimStart body)) with (trim body). now rewrite Hn.
  - intros Hw.
    assert (Ht : trim ("d/dx " ++ body) = "d/dx").
    { unfold trim. change (trimStart ("d/dx " ++ body)) with ("d/dx " ++ body).
      change ("d/dx " ++ body) with ("d/dx" ++ (32%N :: body)).
      rewrite trimEnd_whitespace; [reflexivity|].
      unfold all_whitespace in *. cbn [forallb]. now rewrite Hw. }
    rewrite Ht. reflexivity.
Qed.

Lemma keys_make_requests_witness :
  regex_integral (trim ("∫" ++ " x^2 " ++ "dx")) = Some ("x^2", "x")
  /\ regex_derivative (trim ("d/dx " ++ "x^2")) = Some ("x", "x^2")
  /\ regex_derivative (trim ("d/dx " ++ "  ")) = None.
Proof.
  split; [|split].
  - apply (proj1 (proj2 (keys_make_requests " x^2 "))). reflexivity.
  - apply (proj1 (proj2 (proj2 (keys_make_requests "x^2")))).
    + reflexivity.
    + discriminate.
  - apply (proj2 (proj2 (proj2 (keys_make_requests "  ")))). reflexivity.
Defined.

Lemma part000_solveInput_unchanged_iff_witness :
  Part000.solveInput (Some math_of_part000) "d/dxx^2" = Ret Unchanged.
Proof.
  apply (proj2 (part000_solveInput_unchanged_iff (Some math_of_part000) "d/dxx^2")).
  right. split; [reflexivity|].
  apply regex_derivative_rejects. reflexivity.
Defined.

(** ** Signed numbers and constants that are not numbers

    The blocks of [integrate] test that an exponent and a coefficient have
    the type [ConstantNode].  [math.parse] returns a number with a sign in front as a
    unary minus applied to a constant, and a quoted text, [true], [false] and
    [null] as constants that are not numbers. *)

(** What the first two blocks return on an exponent that is a number. *)
Lemma integrate_power_branches
    (parse : jsstring -> outcome Node) (expression v : jsstring) (x : number) :
  parse expression = Ret (Pow (Sym v) (ConstantNode (VNum x))) ->
  integrate parse expression v
  = if is_zero (plus_one (VNum x)) then parse ("ln(" ++ v ++ ")")
    else parse ("(" ++ v ++ "^" ++ toText (plus_one (VNum x))
                   ++ ")/" ++ toText (plus_one (VNum x))).
Proof.
  intros H. run_integrate H.
  destruct (is_zero (plus_one (VNum x))); reflexivity.
Qed.

Lemma integrate_constant_power_branches
    (parse : jsstring -> outcome Node) (expression v : jsstring)
    (c : Value) (x : number) :
  parse expression = Ret (Mul (ConstantNode c) (Pow (Sym v) (ConstantNode (VNum x)))) ->
  integrate parse expression v
  = if is_zero (plus_one (VNum x)) then parse (toText c ++ " * ln(" ++ v ++ ")")
    else parse ("(" ++ toText c ++ " * " ++ v ++ "^" ++ toText (plus_one (VNum x))
                   ++ ")/" ++ toText (plus_one (VNum x))).
Proof.
  intros H. run_integrate H.
  destruct (is_zero (plus_one (VNum x))); reflexivity.
Qed.

(** An error of [integrate] is displayed after [Error: ]. *)
Lemma solveInput_integral_error
    (M : MathJS) (parse : jsstring -> outcome Node)
    (input body variable message : jsstring) :
  integral_pattern (trim input) body variable ->
  math_parse M = Some parse ->
  integrate parse (trim body) variable = Throw message ->
  solveInput (Some M) input = Ret (SetResult ("Error: " ++ message)).
Proof.
  intros Hp Hparse Hi. unfold solveInput; cbv zeta.
  rewrite (integral_pattern_prefix _ _ _ Hp), (regex_integral_complete _ _ _ Hp).
  rewrite Hparse, trim_idempotent. unfold try_catch, bind.
  rewrite Hi. reflexivity.
Qed.

(** Every body that a rule of the specification matches is recognized by the
    block of the same rank. *)
Lemma spec_rules_recognized (body : Node) (variable : jsstring) :
  (spec_power_rule body variable = true -> recognizes_power body variable = true)
  /\ (spec_constant_power_rule body variable = true
      -> recognizes_constant_power body variable = true)
  /\ (spec_symbol_rule body variable = true -> recognizes_symbol body variable = true)
  /\ (spec_constant_symbol_rule body variable = true
      -> recognizes_constant_symbol body variable = true).
Proof.
  repeat match goal with |- _ /\ _ => split end;
    cbv beta iota zeta delta
      [spec_power_rule spec_constant_power_rule spec_symbol_rule
       spec_constant_symbol_rule recognizes_power recognizes_constant_power
       recognizes_symbol recognizes_constant_symbol typeof_number];
    split_shape; try discriminate; try (intros ->; reflexivity);
    rewrite ?andb_true_r; auto.
Qed.

(** C1. [math.parse] returns a negative exponent or coefficient as a unary
    minus applied to a constant.  On a body [v^-m], on a body [c*v^-m] and on
    a body [-c*v^n], whatever the constants, no block of [integrate] returns
    and the unsupported-expression error is thrown: [solveInput] displays
    that error for the inputs [∫ x^-2 dx] and [∫ -3*x^2 dx], where the power
    rule gives [(x^-1)/-1] and [(-3 * x^3)/3]. *)
Theorem integrate_negative_power_unsupported
    (parse : jsstring -> outcome Node) (expression v : jsstring) (m c n : Value) :
  (parse expression = Ret (Pow (Sym v) (Neg (ConstantNode m))) ->
   integrate parse expression v
   = Throw ("Integration not yet supported for: " ++ expression
               ++ ". Try: x, x^2, x^3, 2*x, etc."))
  /\
  (parse expression = Ret (Mul (ConstantNode c) (Pow (Sym v) (Neg (ConstantNode m)))) ->
   integrate parse expression v
   = Throw ("Integration not yet supported for: " ++ expression
               ++ ". Try: x, x^2, x^3, 2*x, etc."))
  /\
  (parse expression = Ret (Mul (Neg (ConstantNode c)) (Pow (Sym v) (ConstantNode n))) ->
   integrate parse expression v
   = Throw ("Integration not yet supported for: " ++ expression
               ++ ". Try: x, x^2, x^3, 2*x, etc."))
  /\
  (forall M, math_parse M = Some parse ->
   parse "x^-2" = Ret (Pow (Sym "x") (Neg (Num 2))) ->
   solveInput (Some M) "∫ x^-2 dx"
   = Ret (SetResult "Error: Integration not yet supported for: x^-2. Try: x, x^2, x^3, 2*x, etc."))
  /\
  (forall M, math_parse M = Some parse ->
   parse "-3*x^2" = Ret (Mul (Neg (Num 3)) (Pow (Sym "x") (Num 2))) ->
   solveInput (Some M) "∫ -3*x^2 dx"
   = Ret (SetResult "Error: Integration not yet supported for: -3*x^2. Try: x, x^2, x^3, 2*x, etc.")).
Proof.
  split; [|split; [|split; [|split]]].
  - intros H; run_integrate H; reflexivity.
  - intros H; run_integrate H; reflexivity.
  - intros H; run_integrate H; reflexivity.
  - intros M HM H.
    apply (solveInput_integral_error M parse "∫ x^-2 dx" "x^-2" "x"
             (unsupported_message "x^-2")); [|exact HM|].
    + exists " ", " ", 120%N. vm_compute. repeat split.
    + change (trim "x^-2") with "x^-2". run_integrate H. reflexivity.
  - intros M HM H.
    apply (solveInput_integral_error M parse "∫ -3*x^2 dx" "-3*x^2" "x"
             (unsupported_message "-3*x^2")); [|exact HM|].
    + exists " ", " ", 120%N. vm_compute. repeat split.
    + change (trim "-3*x^2") with "-3*x^2". run_integrate H. reflexivity.
Qed.

Lemma integrate_negative_power_unsupported_witness :
  integrate sample_parse "x^-2" "x"
  = Throw "Integration not yet supported for: x^-2. Try: x, x^2, x^3, 2*x, etc."
  /\ solveInput (Some math_without_simplify) "∫ x^-2 dx"
     = Ret (SetResult "Error: Integration not yet supported for: x^-2. Try: x, x^2, x^3, 2*x, etc.")
  /\ solveInput (Some math_without_simplify) "∫ -3*x^2 dx"
     = Ret (SetResult "Error: Integration not yet supported for: -3*x^2. Try: x, x^2, x^3, 2*x, etc.").
Proof.
  split; [|split].
  - pose proof (proj1 (integrate_negative_power_unsupported sample_parse
                         "x^-2" "x" (VNum (number_of_Z 2)) VNull VNull)
                  ltac:(vm_compute; reflexivity)) as H.
    by_evaluation H.
  - exact (proj1 (proj2 (proj2 (proj2
             (integrate_negative_power_unsupported sample_parse
                "x" "x" VNull VNull VNull))))
             math_without_simplify eq_refl ltac:(vm_compute; reflexivity)).
  - exact (proj2 (proj2 (proj2 (proj2
             (integrate_negative_power_unsupported sample_parse
                "x" "x" VNull VNull VNull))))
             math_without_simplify eq_refl ltac:(vm_compute; reflexivity)).
Defined.

(** C2. On a body [v^-1], which [math.parse] returns as [v] to the power of
    a unary minus applied to the constant 1, and on [c*v^-1], and on
    [v^(-1)] with parentheses, no block of [integrate] returns and the
    unsupported-expression error is thrown: [solveInput] displays that error
    for [∫ x^-1 dx], not [ln(x)].  The logarithm branch returns on an
    exponent that is a constant node of value -1. *)
Theorem integrate_reciprocal_unsupported
    (parse : jsstring -> outcome Node) (expression v : jsstring) (c : Value) :
  (parse expression = Ret (Pow (Sym v) (Neg (Num 1))) ->
   integrate parse expression v
   = Throw ("Integration not yet supported for: " ++ expression
               ++ ". Try: x, x^2, x^3, 2*x, etc."))
  /\
  (parse expression = Ret (Mul (ConstantNode c) (Pow (Sym v) (Neg (Num 1)))) ->
   integrate parse expression v
   = Throw ("Integration not yet supported for: " ++ expression
               ++ ". Try: x, x^2, x^3, 2*x, etc."))
  /\
  (parse expression = Ret (Pow (Sym v) (ParenthesisNode (Neg (Num 1)))) ->
   integrate parse expression v
   = Throw ("Integration not yet supported for: " ++ expression
               ++ ". Try: x, x^2, x^3, 2*x, etc."))
  /\
  (forall M, math_parse M = Some parse ->
   parse "x^-1" = Ret (Pow (Sym "x") (Neg (Num 1))) ->
   solveInput (Some M) "∫ x^-1 dx"
   = Ret (SetResult "Error: Integration not yet supported for: x^-1. Try: x, x^2, x^3, 2*x, etc."))
  /\
  (parse expression = Ret (Pow (Sym v) (Num (-1))) ->
   integrate parse expression v = parse ("ln(" ++ v ++ ")"))
  /\
  (parse expression = Ret (Mul (ConstantNode c) (Pow (Sym v) (Num (-1)))) ->
   integrate parse expression v = parse (toText c ++ " * ln(" ++ v ++ ")")).
Proof.
  split; [|split; [|split; [|split; [|split]]]].
  - intros H; run_integrate H; reflexivity.
  - intros H; run_integrate H; reflexivity.
  - intros H; run_integrate H; reflexivity.
  - intros M HM H.
    apply (solveInput_integral_error M parse "∫ x^-1 dx" "x^-1" "x"
             (unsupported_message "x^-1")); [|exact HM|].
    + exists " ", " ", 120%N. vm_compute. repeat split.
    + change (trim "x^-1") with "x^-1". run_integrate H. reflexivity.
  - intros H; run_integrate H; reflexivity.
  - intros H; run_integrate H; reflexivity.
Qed.

Lemma integrate_reciprocal_unsupported_witness :
  integrate sample_parse "x^-1" "x"
  = Throw "Integration not yet supported for: x^-1. Try: x, x^2, x^3, 2*x, etc."
  /\ integrate sample_parse "3*x^-1" "x"
     = Throw "Integration not yet supported for: 3*x^-1. Try: x, x^2, x^3, 2*x, etc."
  /\ integrate sample_parse "x^(-1)" "x"
     = Throw "Integration not yet supported for: x^(-1). Try: x, x^2, x^3, 2*x, etc."
  /\ solveInput (Some math_without_simplify) "∫ x^-1 dx"
     = Ret (SetResult "Error: Integration not yet supported for: x^-1. Try: x, x^2, x^3, 2*x, etc.")
  /\ integrate
       (echo_parse [("1/x", Pow (Sym "x") (Num (-1)))]) "1/x" "x"
     = Ret (SymbolNode "ln(x)").
Proof.
  split; [|split; [|split; [|split]]].
  - pose proof (proj1 (integrate_reciprocal_unsupported sample_parse
                         "x^-1" "x" VNull)
                  ltac:(vm_compute; reflexivity)) as H.
    by_evaluation H.
  - pose proof (proj1 (proj2 (integrate_reciprocal_unsupported sample_parse
                                "3*x^-1" "x" (VNum (number_of_Z 3))))
                  ltac:(vm_compute; reflexivity)) as H.
    by_evaluation H.
  - pose proof (proj1 (proj2 (proj2 (integrate_reciprocal_unsupported sample_parse
                                       "x^(-1)" "x" VNull)))
                  ltac:(vm_compute; reflexivity)) as H.
    by_evaluation H.
  - exact (proj1 (proj2 (proj2 (proj2
             (integrate_reciprocal_unsupported sample_parse "x" "x" VNull))))
             math_without_simplify eq_refl ltac:(vm_compute; reflexivity)).
  - pose proof (proj1 (proj2 (proj2 (proj2 (proj2
                  (integrate_reciprocal_unsupported
                     (echo_parse [("1/x", Pow (Sym "x") (Num (-1)))])
                     "1/x" "x" VNull)))))
                  ltac:(vm_compute; reflexivity)) as H.
    by_evaluation H.
Defined.

(** C9. On a body [0*v^-m], the exponent being a unary minus applied to a
    constant as [math.parse] returns it, [integrate] throws the
    unsupported-expression error and returns no tree: [solveInput] displays
    that error for [∫ 0*x^-2 dx].  On [0*v^2] it returns the parse of
    [(0 * v^3)/3], and on [v^0] the parse of [(v^1)/1]. *)
Theorem integrate_zero_coefficient_negative_exponent
    (parse : jsstring -> outcome Node) (expression v : jsstring) (m : Value) :
  (parse expression = Ret (Mul (Num 0) (Pow (Sym v) (Neg (ConstantNode m)))) ->
   integrate parse expression v
   = Throw ("Integration not yet supported for: " ++ expression
               ++ ". Try: x, x^2, x^3, 2*x, etc."))
  /\
  (forall M, math_parse M = Some parse ->
   parse "0*x^-2" = Ret (Mul (Num 0) (Pow (Sym "x") (Neg (Num 2)))) ->
   solveInput (Some M) "∫ 0*x^-2 dx"
   = Ret (SetResult "Error: Integration not yet supported for: 0*x^-2. Try: x, x^2, x^3, 2*x, etc."))
  /\
  (parse expression = Ret (Mul (Num 0) (Pow (Sym v) (Num 2))) ->
   integrate parse expression v = parse ("(0 * " ++ v ++ "^3)/3"))
  /\
  (parse expression = Ret (Pow (Sym v) (Num 0)) ->
   integrate parse expression v = parse ("(" ++ v ++ "^1)/1")).
Proof.
  split; [|split; [|split]].
  - intros H; run_integrate H; reflexivity.
  - intros M HM H.
    apply (solveInput_integral_error M parse "∫ 0*x^-2 dx" "0*x^-2" "x"
             (unsupported_message "0*x^-2")); [|exact HM|].
    + exists " ", " ", 120%N. vm_compute. repeat split.
    + change (trim "0*x^-2") with "0*x^-2". run_integrate H. reflexivity.
  - intros H; run_integrate H; reflexivity.
  - intros H; run_integrate H; reflexivity.
Qed.

Lemma integrate_zero_coefficient_negative_exponent_witness :
  integrate sample_parse "0*x^-2" "x"
  = Throw "Integration not yet supported for: 0*x^-2. Try: x, x^2, x^3, 2*x, etc."
  /\ solveInput (Some math_without_simplify) "∫ 0*x^-2 dx"
     = Ret (SetResult "Error: Integration not yet supported for: 0*x^-2. Try: x, x^2, x^3, 2*x, etc.")
  /\ integrate sample_parse "0*x^2" "x" = sample_parse "(0 * x^3)/3"
  /\ integrate sample_parse "x^0" "x" = sample_parse "(x^1)/1".
Proof.
  split; [|split; [|split]].
  - pose proof (proj1 (integrate_zero_coefficient_negative_exponent sample_parse
                         "0*x^-2" "x" (VNum (number_of_Z 2)))
                  ltac:(vm_compute; reflexivity)) as H.
    by_evaluation H.
  - exact (proj1 (proj2
             (integrate_zero_coefficient_negative_exponent sample_parse
                "x" "x" VNull))
             math_without_simplify eq_refl ltac:(vm_compute; reflexivity)).
  - pose proof (proj1 (proj2 (proj2
                  (integrate_zero_coefficient_negative_exponent sample_parse
                     "0*x^2" "x" VNull)))
                  ltac:(vm_compute; reflexivity)) as H.
    by_evaluation H.
  - pose proof (proj2 (proj2 (proj2
                  (integrate_zero_coefficient_negative_exponent sample_parse
                     "x^0" "x" VNull)))
                  ltac:(vm_compute; reflexivity)) as H.
    by_evaluation H.
Defined.

(** C5. A body that matches none of the four rules of the specification can
    be returned by [integrate] all the same: a constant times a power of the
    variable to a quoted text [t] gives the parse of [(c * v^t1)/t1], and a
    constant that is not a number times the variable gives the parse of
    [(c * v^2)/2], where blocks 2 and 4 do not test that their constants are
    numbers.  A function call such as [sin(x)], which matches no rule either,
    throws the unsupported-expression error with the expression text. *)
Theorem integrate_nonnumeric_constant_returns
    (parse : jsstring -> outcome Node) (expression v : jsstring)
    (c b : Value) (text : jsstring) :
  (spec_matching_rules
     (Mul (ConstantNode c) (Pow (Sym v) (ConstantNode (VStr text)))) v = 0%nat
   /\
   (parse expression
    = Ret (Mul (ConstantNode c) (Pow (Sym v) (ConstantNode (VStr text)))) ->
    integrate parse expression v
    = parse ("(" ++ toText c ++ " * " ++ v ++ "^" ++ (text ++ "1")
                ++ ")/" ++ (text ++ "1"))))
  /\
  (typeof_number b = false ->
   spec_matching_rules (Mul (ConstantNode b) (Sym v)) v = 0%nat
   /\
   (parse expression = Ret (Mul (ConstantNode b) (Sym v)) ->
    integrate parse expression v
    = parse ("(" ++ toText b ++ " * " ++ v ++ "^2)/2")))
  /\
  (forall fn args,
     spec_matching_rules (FunctionNode fn args) v = 0%nat
     /\
     (parse expression = Ret (FunctionNode fn args) ->
      integrate parse expression v
      = Throw ("Integration not yet supported for: " ++ expression
                  ++ ". Try: x, x^2, x^3, 2*x, etc."))).
Proof.
  split; [|split].
  - split.
    + destruct c; reflexivity.
    + intros H; run_integrate H; reflexivity.
  - intros Hb; split.
    + destruct b; try discriminate; reflexivity.
    + intros H; run_integrate H; reflexivity.
  - intros fn args; split; [reflexivity|].
    intros H; run_integrate H; reflexivity.
Qed.

Lemma integrate_nonnumeric_constant_returns_witness :
  spec_matching_rules (Mul (Num 2) (Pow (Sym "x") (ConstantNode (VStr "3")))) "x"
  = 0%nat
  /\ integrate
       (echo_parse
          [("2*x^" ++ [34%N] ++ "3" ++ [34%N],
            Mul (Num 2) (Pow (Sym "x") (ConstantNode (VStr "3"))))])
       ("2*x^" ++ [34%N] ++ "3" ++ [34%N]) "x"
     = Ret (SymbolNode "(2 * x^31)/31")
  /\ spec_matching_rules (Mul (ConstantNode (VBool true)) (Sym "x")) "x" = 0%nat
  /\ integrate
       (echo_parse [("true*x", Mul (ConstantNode (VBool true)) (Sym "x"))])
       "true*x" "x"
     = Ret (SymbolNode "(true * x^2)/2")
  /\ integrate sample_parse "sin(x)" "x"
     = Throw "Integration not yet supported for: sin(x). Try: x, x^2, x^3, 2*x, etc.".
Proof.
  split; [|split; [|split; [|split]]].
  - exact (proj1 (proj1 (integrate_nonnumeric_constant_returns sample_parse
                           "x" "x" (VNum (number_of_Z 2)) VNull "3"))).
  - pose proof (proj2 (proj1 (integrate_nonnumeric_constant_returns
                                (echo_parse
                                   [("2*x^" ++ [34%N] ++ "3" ++ [34%N],
                                     Mul (Num 2)
                                       (Pow (Sym "x") (ConstantNode (VStr "3"))))])
                                ("2*x^" ++ [34%N] ++ "3" ++ [34%N]) "x"
                                (VNum (number_of_Z 2)) VNull "3"))
                  ltac:(vm_compute; reflexivity)) as H.
    by_evaluation H.
  - exact (proj1 (proj1 (proj2 (integrate_nonnumeric_constant_returns sample_parse
                                  "x" "x" VNull (VBool true) "3"))
                    eq_refl)).
  - pose proof (proj2 (proj1 (proj2 (integrate_nonnumeric_constant_returns
                                       (echo_parse
                                          [("true*x",
                                            Mul (ConstantNode (VBool true)) (Sym "x"))])
                                       "true*x" "x" VNull (VBool true) "3"))
                         eq_refl)
                  ltac:(vm_compute; reflexivity)) as H.
    by_evaluation H.
  - pose proof (proj2 (proj2 (proj2 (integrate_nonnumeric_constant_returns sample_parse
                                       "sin(x)" "x" VNull VNull "3"))
                         "sin" [Sym "x"])
                  ltac:(vm_compute; reflexivity)) as H.
    by_evaluation H.
Defined.
